(** * Payment order lifecycle of the merchant-integration bot

    A shallow embedding of [shared_data.py], [kkpay_api.py],
    [webhook_server.py] and the order-creating handlers of [main.py].

    - Python [float] amounts are kept behind the interface [Amount]; the
      instance [float_Amount] is IEEE binary64 (what the program runs on),
      [Z_Amount] is an exact instance used where a statement needs
      arithmetic laws that binary64 does not have.
    - The two module-level dictionaries [user_accounts] and
      [pending_orders] form the record [Store]; every function that touches
      them takes and returns the store.
    - An [await] on the network splits a handler in two halves; the halves are
      given separately (suffixes [_request] and [_reply]) next to the whole
      handler, with the answer of the remote side as an argument.
    - A callback handler is one step: its only [await] sends the
      notification to the user and touches neither dictionary.
    - Display-only data (message texts, [note], [timestamp], [created_at])
      is left out. *)

From Stdlib Require Import ZArith NArith Floats.
From stdpp Require Import gmap strings list.

Set Warnings "-inexact-float".
Local Open Scope Z_scope.
Local Open Scope string_scope.

(** ** Amounts *)

Class Amount (A : Type) := {
  num_zero : A;                 (* 0.0, float(0) *)
  num_one : A;                  (* the literal 1 in [amount < 1] *)
  num_add : A -> A -> A;        (* + *)
  num_sub : A -> A -> A;        (* - *)
  num_neg : A -> A;             (* unary - *)
  num_lt : A -> A -> bool       (* <  ([a > b] is [num_lt b a]) *)
}.

Declare Scope amount_scope.
Delimit Scope amount_scope with amt.
Infix "⊕" := num_add (at level 50, left associativity) : amount_scope.
Infix "⊖" := num_sub (at level 50, left associativity) : amount_scope.
Local Open Scope amount_scope.

#[export] Instance float_Amount : Amount float := {|
  num_zero := 0%float;
  num_one := 1%float;
  num_add := PrimFloat.add;
  num_sub := PrimFloat.sub;
  num_neg := PrimFloat.opp;
  num_lt := PrimFloat.ltb
|}.

#[export] Instance Z_Amount : Amount Z := {|
  num_zero := 0;
  num_one := 1;
  num_add := Z.add;
  num_sub := Z.sub;
  num_neg := Z.opp;
  num_lt := Z.ltb
|}.

(** [num_le a b] is Python's [not (b < a)]. *)
Definition num_le `{Amount A} (a b : A) : Prop := num_lt b a = false.

(** The order and sign laws of exact numbers used by the balance invariant.
    Binary64 breaks them at [nan] and at [inf - inf]. *)
Class AmountLaws (A : Type) `{Amount A} : Prop := {
  le_zero_zero : num_le num_zero num_zero;
  le_zero_of_one_le a : num_le num_one a -> num_le num_zero a;
  add_nonneg a b : num_le num_zero a -> num_le num_zero b -> num_le num_zero (a ⊕ b);
  sub_nonneg a b : num_le a b -> num_le num_zero (b ⊖ a);
  le_add_nonneg a b c : num_le a b -> num_le num_zero c -> num_le a (b ⊕ c)
}.

(** ** Data model ([shared_data.py]) *)

Section Model.
Context {A : Type} `{Amount A}.

Record Transaction := {
  tx_type : string;
  tx_amount : A;
  tx_status : option string;    (* [None] is Python's None *)
  tx_order_id : string
}.

Record Account := {
  balance : A;
  transactions : list Transaction
}.

Record Order := {
  user_id : Z;
  recipient_id : option Z;      (* key present for withdrawals only *)
  amount : A;
  coin : string;
  order_type : string;
  order_status : string;
  txid : option string;         (* keys added after the gateway accepted *)
  fee : option string
}.

Record Store := {
  user_accounts : gmap Z Account;
  pending_orders : gmap string Order
}.

Definition empty_store : Store :=
  {| user_accounts := ∅; pending_orders := ∅ |}.

Definition set_user_accounts (m : gmap Z Account) (s : Store) : Store :=
  {| user_accounts := m; pending_orders := pending_orders s |}.

Definition set_pending_orders (m : gmap string Order) (s : Store) : Store :=
  {| user_accounts := user_accounts s; pending_orders := m |}.

Definition new_account : Account :=
  {| balance := num_zero; transactions := [] |}.

(** [get_user_account]: the account is created on first access; the
    returned dictionary is the stored one. *)
Definition get_user_account (uid : Z) (s : Store) : Account * Store :=
  match user_accounts s !! uid with
  | Some account => (account, s)
  | None => (new_account, set_user_accounts (<[uid := new_account]> (user_accounts s)) s)
  end.

(** A write through the reference [get_user_account] returned. *)
Definition put_account (uid : Z) (account : Account) (s : Store) : Store :=
  set_user_accounts (<[uid := account]> (user_accounts s)) s.

Definition add_transaction (uid : Z) (ty : string) (amt : A)
    (status : string) (order_id : string) (s : Store) : Store :=
  let '(account, s1) := get_user_account uid s in
  let transaction :=
    {| tx_type := ty; tx_amount := amt; tx_status := Some status;
       tx_order_id := order_id |} in
  put_account uid
    {| balance := balance account;
       transactions := transactions account ++ [transaction] |} s1.

Definition add_pending_order (order_id : string) (order : Order) (s : Store) : Store :=
  set_pending_orders (<[order_id := order]> (pending_orders s)) s.

Definition get_pending_order (order_id : string) (s : Store) : option Order :=
  pending_orders s !! order_id.

Definition remove_pending_order (order_id : string) (s : Store) : Store :=
  match pending_orders s !! order_id with
  | Some _ => set_pending_orders (delete order_id (pending_orders s)) s
  | None => s
  end.

Definition update_user_balance (uid : Z) (amt : A) (s : Store) : Store :=
  let '(account, s1) := get_user_account uid s in
  put_account uid
    {| balance := balance account ⊕ amt;
       transactions := transactions account |} s1.

Definition set_tx_status (status : option string) (tx : Transaction) : Transaction :=
  {| tx_type := tx_type tx; tx_amount := tx_amount tx; tx_status := status;
     tx_order_id := tx_order_id tx |}.

(** The loop of [update_transaction_status]: the first transaction of the
    order is rewritten, then [break]. *)
Fixpoint mark_first (order_id : string) (status : option string)
    (txs : list Transaction) : list Transaction :=
  match txs with
  | [] => []
  | tx :: rest =>
      if String.eqb (tx_order_id tx) order_id
      then set_tx_status status tx :: rest
      else tx :: mark_first order_id status rest
  end.

Definition update_transaction_status (uid : Z) (order_id : string)
    (status : option string) (s : Store) : Store :=
  let '(account, s1) := get_user_account uid s in
  put_account uid
    {| balance := balance account;
       transactions := mark_first order_id status (transactions account) |} s1.

(** Reading helpers used in statements. *)
Definition balance_of (uid : Z) (s : Store) : A :=
  balance (get_user_account uid s).1.

Definition transactions_of (uid : Z) (s : Store) : list Transaction :=
  transactions (get_user_account uid s).1.

Fixpoint find_tx (order_id : string) (txs : list Transaction) : option Transaction :=
  match txs with
  | [] => None
  | tx :: rest =>
      if String.eqb (tx_order_id tx) order_id then Some tx
      else find_tx order_id rest
  end.

End Model.

Arguments Transaction : clear implicits.
Arguments Account : clear implicits.
Arguments Order : clear implicits.
Arguments Store : clear implicits.

(** ** Signatures ([KKPayAPI.generate_sign], [verify_signature]) *)

(** A Python [str] is a sequence of code points, [bytes] a sequence of
    numbers below 256. *)
Definition pystr := list N.

(** [str.encode('utf-8')] on one code point; [None] is UnicodeEncodeError
    (a lone surrogate). *)
Definition utf8_char (c : N) : option (list N) :=
  (if c <? 0x80 then Some [c]
   else if c <? 0x800 then
     Some [N.lor 0xC0 (N.shiftr c 6); N.lor 0x80 (N.land c 0x3F)]
   else if c <? 0x10000 then
     if (0xD800 <=? c) && (c <=? 0xDFFF) then None
     else Some [N.lor 0xE0 (N.shiftr c 12);
                N.lor 0x80 (N.land (N.shiftr c 6) 0x3F);
                N.lor 0x80 (N.land c 0x3F)]
   else if c <? 0x110000 then
     Some [N.lor 0xF0 (N.shiftr c 18);
           N.lor 0x80 (N.land (N.shiftr c 12) 0x3F);
           N.lor 0x80 (N.land (N.shiftr c 6) 0x3F);
           N.lor 0x80 (N.land c 0x3F)]
   else None)%N.

Fixpoint utf8_encode (s : pystr) : option (list N) :=
  match s with
  | [] => Some []
  | c :: rest =>
      match utf8_char c, utf8_encode rest with
      | Some bs, Some bss => Some (bs ++ bss)%list
      | _, _ => None
      end
  end.

Section Signature.
(** [hashlib.sha256(..).digest()] and [base64.b64encode(..).decode('utf-8')],
    library functions taken as they are. *)
Variable sha256 : list N -> list N.
Variable b64encode : list N -> pystr.

(** [KKPayAPI.generate_sign]; [None] when the call raises. *)
Definition generate_sign (secret : pystr) (data : pystr) : option pystr :=
  let message := (data ++ secret)%list in
  match utf8_encode message with
  | Some bytes => Some (b64encode (sha256 bytes))
  | None => None
  end.

(** [verify_signature]: the [try] turns every exception into [False].
    [received] is the header value, [None] when the header is missing. *)
Definition verify_signature (KKPAY_SECRET : pystr) (data : pystr)
    (received : option pystr) : bool :=
  let message := (data ++ KKPAY_SECRET)%list in
  match utf8_encode message with
  | Some bytes =>
      let expected_signature := b64encode (sha256 bytes) in
      bool_decide (Some expected_signature = received)
  | None => false
  end.

End Signature.

(** ** Callback handlers ([webhook_server.py]) *)

(** How a handler ends: it returns, or an exception leaves it. The store
    keeps the writes made before the exception. *)
Inductive outcome := Returned | Raised.

Section Callbacks.
Context {A : Type} `{Amount A}.

(** The [amount] entry of the decoded payload, as [float(..)] sees it. *)
Inductive amount_field :=
  | AmountAbsent                (* no such key: [.get('amount', 0)] *)
  | AmountValue (a : A)         (* a number, or a text that parses to one *)
  | AmountInvalid.              (* [float] raises *)

Record Callback := {
  businessType : option string;
  userOrder : option string;
  cb_amount : amount_field;
  orderStatus : option string   (* [None]: no such key *)
}.

Definition py_float (f : amount_field) : option A :=
  match f with
  | AmountAbsent => Some num_zero
  | AmountValue a => Some a
  | AmountInvalid => None
  end.

Definition handle_deposit_callback (callback_data : Callback)
    (s : Store A) : Store A * outcome :=
  match py_float (cb_amount callback_data) with
  | None => (s, Raised)
  | Some amt =>
      let status := default "success" (orderStatus callback_data) in
      match userOrder callback_data with
      | None => (s, Returned)
      | Some user_order =>
          match get_pending_order user_order s with
          | Some order =>
              let uid := user_id order in
              let '(_, s1) := get_user_account uid s in
              let s2 :=
                if String.eqb status "success" then
                  update_transaction_status uid user_order (Some "success")
                    (update_user_balance uid amt s1)
                else s1 in
              (remove_pending_order user_order s2, Returned)
          | None => (s, Returned)
          end
      end
  end.

Definition handle_withdraw_callback (callback_data : Callback)
    (s : Store A) : Store A * outcome :=
  match py_float (cb_amount callback_data) with
  | None => (s, Raised)
  | Some _ =>
      let status := orderStatus callback_data in
      match userOrder callback_data with
      | None => (s, Returned)
      | Some user_order =>
          match get_pending_order user_order s with
          | Some order =>
              let uid := user_id order in
              let '(_, s1) := get_user_account uid s in
              let s2 := update_transaction_status uid user_order status s1 in
              if bool_decide (status = Some "fail") then
                (remove_pending_order user_order
                   (update_user_balance uid (amount order) s2), Returned)
              else
                (* the success text reads order['recipient_id'] *)
                match recipient_id order with
                | Some _ => (remove_pending_order user_order s2, Returned)
                | None => (s2, Raised)
                end
          | None => (s, Returned)
          end
      end
  end.

Definition handle_withdraw_confirm_callback (callback_data : Callback)
    (s : Store A) : Store A * outcome :=
  match py_float (cb_amount callback_data) with
  | None => (s, Raised)
  | Some _ => (s, Returned)
  end.

(** The headers and the body of a request; [req_text] is [None] when
    [request.text()] raises. *)
Record Request := {
  hdr_id : option pystr;        (* KKPAY-ID *)
  hdr_sign : option pystr;      (* KKPAY-SIGN *)
  req_text : option pystr
}.

Section Webhook.
Variable sha256 : list N -> list N.
Variable b64encode : list N -> pystr.
(** [json.loads(base64.b64decode(body).decode('utf-8'))] for a body that
    holds a JSON object; [None] when it raises. *)
Variable decode_payload : pystr -> option Callback.
Variable KKPAY_MERCHANT_ID : pystr.
Variable KKPAY_SECRET : pystr.

(** [kkpay_webhook_handler]: the store after the request and the HTTP
    status of the response. *)
Definition kkpay_webhook_handler (request : Request) (s : Store A) : Store A * Z :=
  if negb (bool_decide (hdr_id request = Some KKPAY_MERCHANT_ID)) then (s, 401)
  else
    match req_text request with
    | None => (s, 500)
    | Some body =>
        if negb (verify_signature sha256 b64encode KKPAY_SECRET body (hdr_sign request))
        then (s, 401)
        else
          match decode_payload body with
          | None => (s, 400)
          | Some callback_data =>
              let '(s', o) :=
                match businessType callback_data with
                | Some "deposit" => handle_deposit_callback callback_data s
                | Some "withdraw" => handle_withdraw_callback callback_data s
                | Some "withdrawalPendingConfirm" =>
                    handle_withdraw_confirm_callback callback_data s
                | _ => (s, Returned)
                end in
              (s', match o with Returned => 200 | Raised => 500 end)
          end
    end.

End Webhook.
End Callbacks.

Arguments amount_field : clear implicits.
Arguments Callback : clear implicits.

(** ** Order creation ([main.py]) *)

(** What [KKPayAPI.make_request] returned for [payLink] or
    [createWithdrawOrder]: [code], and [txid] and [fee] of [data]. *)
Record Response := {
  resp_code : option Z;
  resp_txid : option string;
  resp_fee : option string
}.

(** What it returned for [censorUserbyTGID]. *)
Record CheckResult := {
  chk_code : option Z;
  chk_isExist : bool            (* [data.isExist], False when missing *)
}.

Inductive UserStates :=
  | waiting_for_topup_amount
  | waiting_for_withdraw_amount
  | waiting_for_recipient_tg_id.

#[export] Instance UserStates_eq_dec : EqDecision UserStates.
Proof. solve_decision. Defined.

Section Creation.
Context {A : Type} `{Amount A}.

(** The FSM context of a user: the state and the entries of its data. *)
Record FsmContext := {
  fsm_state : option UserStates;
  data_operation : option string;
  data_coin : option string;
  data_amount : option A
}.

Definition fsm_empty : FsmContext :=
  {| fsm_state := None; data_operation := None; data_coin := None;
     data_amount := None |}.

(** The store and the FSM storage (one conversation per user). *)
Record World := {
  store : Store A;
  fsm : gmap Z FsmContext
}.

Definition empty_world : World := {| store := empty_store; fsm := ∅ |}.

Definition context_of (uid : Z) (w : World) : FsmContext :=
  default fsm_empty (fsm w !! uid).

Definition with_store (s : Store A) (w : World) : World :=
  {| store := s; fsm := fsm w |}.

(** [state.clear()] *)
Definition state_clear (uid : Z) (w : World) : World :=
  {| store := store w; fsm := delete uid (fsm w) |}.

Definition start_command (uid : Z) (w : World) : World :=
  with_store (get_user_account uid (store w)).2 w.

Definition select_coin_for_topup (uid : Z) (coin_name : string) (w : World) : World :=
  let ctx := context_of uid w in
  {| store := store w;
     fsm := <[uid := {| fsm_state := Some waiting_for_topup_amount;
                        data_operation := Some "topup";
                        data_coin := Some coin_name;
                        data_amount := data_amount ctx |}]> (fsm w) |}.

Definition select_coin_for_withdraw (uid : Z) (coin_name : string) (w : World) : World :=
  let ctx := context_of uid w in
  if bool_decide (data_operation ctx = Some "topup")
  then select_coin_for_topup uid coin_name w
  else
    {| store := (get_user_account uid (store w)).2;
       fsm := <[uid := {| fsm_state := Some waiting_for_withdraw_amount;
                          data_operation := Some "withdraw";
                          data_coin := Some coin_name;
                          data_amount := data_amount ctx |}]> (fsm w) |}.

(** [order['txid'] = txid] (and [order['fee'] = fee]) on the stored order. *)
Definition set_order_txid (user_order : string) (new_txid : string)
    (new_fee : option string) (s : Store A) : Store A :=
  match get_pending_order user_order s with
  | Some order =>
      add_pending_order user_order
        {| user_id := user_id order; recipient_id := recipient_id order;
           amount := amount order; coin := coin order;
           order_type := order_type order; order_status := order_status order;
           txid := Some new_txid;
           fee := match new_fee with Some f => Some f | None => fee order end |} s
  | None => s
  end.

(** [process_topup_amount] up to the call of [create_payment_link]. *)
Definition process_topup_amount_request (uid : Z) (amt : A) (coin_name : string)
    (user_order : string) (s : Store A) : Store A :=
  add_pending_order user_order
    {| user_id := uid; recipient_id := None; amount := amt; coin := coin_name;
       order_type := "topup"; order_status := "pending";
       txid := None; fee := None |} s.

(** [process_topup_amount] from the answer of the gateway on. *)
Definition process_topup_amount_reply (uid : Z) (amt : A) (coin_name : string)
    (user_order : string) (response : Response) (s : Store A) : Store A :=
  if bool_decide (resp_code response = Some 1000) then
    let s1 := set_order_txid user_order (default "" (resp_txid response)) None s in
    add_transaction uid "topup" amt "pending" user_order s1
  else s.

(** [text] is [float(message.text.strip())], [None] on ValueError;
    [user_order] is the generated order id. *)
Definition process_topup_amount (uid : Z) (text : option A) (user_order : string)
    (response : Response) (w : World) : World :=
  match text with
  | None => w
  | Some amt =>
      if num_lt amt num_one then w
      else
        match data_coin (context_of uid w) with
        | None => w               (* KeyError leaves the handler *)
        | Some coin_name =>
            let s1 := process_topup_amount_request uid amt coin_name user_order (store w) in
            let s2 := process_topup_amount_reply uid amt coin_name user_order response s1 in
            state_clear uid (with_store s2 w)
        end
  end.

(** The two tests of [process_withdraw_amount] on the amount, with the
    account lookup between them. *)
Definition withdraw_amount_check (uid : Z) (amt : A) (s : Store A) : bool * Store A :=
  if num_lt amt num_one then (false, s)
  else
    let '(account, s1) := get_user_account uid s in
    if num_lt (balance account) amt then (false, s1) else (true, s1).

Definition process_withdraw_amount (uid : Z) (text : option A) (w : World) : World :=
  match text with
  | None => w
  | Some amt =>
      let '(ok, s1) := withdraw_amount_check uid amt (store w) in
      if ok then
        let ctx := context_of uid w in
        match data_coin ctx with
        | None => with_store s1 w   (* KeyError leaves the handler *)
        | Some _ =>
            {| store := s1;
               fsm := <[uid := {| fsm_state := Some waiting_for_recipient_tg_id;
                                  data_operation := data_operation ctx;
                                  data_coin := data_coin ctx;
                                  data_amount := Some amt |}]> (fsm w) |}
        end
      else with_store s1 w
  end.

(** [process_recipient_id] from the order registration up to the call of
    [create_withdraw_order]. *)
Definition process_recipient_id_request (uid : Z) (recipient : Z) (amt : A)
    (coin_name : string) (user_order : string) (s : Store A) : Store A :=
  add_pending_order user_order
    {| user_id := uid; recipient_id := Some recipient; amount := amt;
       coin := coin_name; order_type := "withdraw"; order_status := "pending";
       txid := None; fee := None |} s.

(** [process_recipient_id] from the answer of the gateway on. *)
Definition process_recipient_id_reply (uid : Z) (recipient : Z) (amt : A)
    (coin_name : string) (user_order : string) (response : Response)
    (s : Store A) : Store A :=
  if bool_decide (resp_code response = Some 1000) then
    let s1 := set_order_txid user_order (default "" (resp_txid response))
                (Some (default "0" (resp_fee response))) s in
    let '(account, s2) := get_user_account uid s1 in
    let s3 := put_account uid
                {| balance := balance account ⊖ amt;
                   transactions := transactions account |} s2 in
    add_transaction uid "withdraw" (num_neg amt) "pending" user_order s3
  else s.

Definition recipient_exists (check_result : CheckResult) : bool :=
  negb (negb (bool_decide (chk_code check_result = Some 10000))
        || negb (chk_isExist check_result)).

(** [text] is [int(message.text.strip())], [None] on ValueError. *)
Definition process_recipient_id (uid : Z) (text : option Z)
    (check_result : CheckResult) (user_order : string) (response : Response)
    (w : World) : World :=
  match text with
  | None => w
  | Some recipient =>
      if negb (recipient_exists check_result) then w
      else
        let ctx := context_of uid w in
        match data_amount ctx, data_coin ctx with
        | Some amt, Some coin_name =>
            let s1 := process_recipient_id_request uid recipient amt coin_name
                        user_order (store w) in
            let s2 := process_recipient_id_reply uid recipient amt coin_name
                        user_order response s1 in
            state_clear uid (with_store s2 w)
        | _, _ => w               (* KeyError leaves the handler *)
        end
  end.

(** The order and the transaction a withdrawal leaves, for the statements. *)
Definition withdraw_order (uid recipient : Z) (amt : A) (coin_name : string)
    (new_txid new_fee : option string) : Order A :=
  {| user_id := uid; recipient_id := Some recipient; amount := amt;
     coin := coin_name; order_type := "withdraw"; order_status := "pending";
     txid := new_txid; fee := new_fee |}.

Definition debit_transaction (amt : A) (oid : string) : Transaction A :=
  {| tx_type := "withdraw"; tx_amount := num_neg amt;
     tx_status := Some "pending"; tx_order_id := oid |}.

(** *** The public operations as events *)

Inductive Event :=
  | EvStart (uid : Z)
  | EvSelectCoinTopup (uid : Z) (coin_name : string)
  | EvSelectCoinWithdraw (uid : Z) (coin_name : string)
  | EvTopupAmount (uid : Z) (text : option A) (user_order : string)
      (response : Response)
  | EvWithdrawAmount (uid : Z) (text : option A)
  | EvRecipient (uid : Z) (text : option Z) (check_result : CheckResult)
      (user_order : string) (response : Response)
  | EvDepositCallback (callback_data : Callback A)
  | EvWithdrawCallback (callback_data : Callback A).

Definition in_state (uid : Z) (st : UserStates) (w : World) : bool :=
  bool_decide (fsm_state (context_of uid w) = Some st).

(** One handler run to completion; a message reaches the handler whose
    state filter matches. *)
Definition step (ev : Event) (w : World) : World :=
  match ev with
  | EvStart uid => start_command uid w
  | EvSelectCoinTopup uid c => select_coin_for_topup uid c w
  | EvSelectCoinWithdraw uid c => select_coin_for_withdraw uid c w
  | EvTopupAmount uid text user_order response =>
      if in_state uid waiting_for_topup_amount w
      then process_topup_amount uid text user_order response w else w
  | EvWithdrawAmount uid text =>
      if in_state uid waiting_for_withdraw_amount w
      then process_withdraw_amount uid text w else w
  | EvRecipient uid text check_result user_order response =>
      if in_state uid waiting_for_recipient_tg_id w
      then process_recipient_id uid text check_result user_order response w else w
  | EvDepositCallback cb => with_store (handle_deposit_callback cb (store w)).1 w
  | EvWithdrawCallback cb => with_store (handle_withdraw_callback cb (store w)).1 w
  end.

Definition run (evs : list Event) (w : World) : World :=
  foldl (fun w ev => step ev w) w evs.

End Creation.

Arguments FsmContext : clear implicits.
Arguments World : clear implicits.
Arguments Event : clear implicits.

(** ** Concurrent withdrawals

    Two runs of the withdrawal conversation of one user. A run advances by
    one handler segment at a time: the amount check of
    [process_withdraw_amount], then [process_recipient_id] up to its gateway
    call, then the rest of it. Segments of the two runs interleave as the
    schedule says; nothing else orders them. *)

Inductive phase := Entered | Checked | Registered | Reserved | Refused.

Section Interleaving.
Context {A : Type} `{Amount A}.

Record WithdrawRequest := {
  wr_amount : A;
  wr_coin : string;
  wr_recipient : Z;
  wr_order : string;
  wr_response : Response        (* the gateway's answer to this request *)
}.

Definition advance (uid : Z) (r : WithdrawRequest) (p : phase) (s : Store A)
    : phase * Store A :=
  match p with
  | Entered =>
      let '(ok, s1) := withdraw_amount_check uid (wr_amount r) s in
      (if ok then Checked else Refused, s1)
  | Checked =>
      (Registered,
       process_recipient_id_request uid (wr_recipient r) (wr_amount r)
         (wr_coin r) (wr_order r) s)
  | Registered =>
      (if bool_decide (resp_code (wr_response r) = Some 1000)
       then Reserved else Refused,
       process_recipient_id_reply uid (wr_recipient r) (wr_amount r)
         (wr_coin r) (wr_order r) (wr_response r) s)
  | Reserved => (Reserved, s)
  | Refused => (Refused, s)
  end.

(** The phases of the two runs and the store they share. *)
Record Race := {
  first_phase : phase;
  second_phase : phase;
  shared : Store A
}.

(** [false] advances the first run, [true] the second. *)
Definition race_step (uid : Z) (r1 r2 : WithdrawRequest) (st : Race)
    (second : bool) : Race :=
  if second then
    let '(p, s) := advance uid r2 (second_phase st) (shared st) in
    {| first_phase := first_phase st; second_phase := p; shared := s |}
  else
    let '(p, s) := advance uid r1 (first_phase st) (shared st) in
    {| first_phase := p; second_phase := second_phase st; shared := s |}.

Definition race (uid : Z) (r1 r2 : WithdrawRequest) (schedule : list bool)
    (s : Store A) : Race :=
  foldl (race_step uid r1 r2)
    {| first_phase := Entered; second_phase := Entered; shared := s |} schedule.

(** The schedule in which the second run starts after the first has ended. *)
Definition one_after_the_other : list bool :=
  [false; false; false; true; true; true].

(** A run taken through its three segments without interruption. *)
Definition advance3 (uid : Z) (r : WithdrawRequest) (s : Store A)
    : phase * Store A :=
  let '(p1, s1) := advance uid r Entered s in
  let '(p2, s2) := advance uid r p1 s1 in
  advance uid r p2 s2.

End Interleaving.

Arguments WithdrawRequest : clear implicits.
Arguments Race : clear implicits.

(** * Properties *)

#[export] Instance Z_AmountLaws : AmountLaws Z.
Proof.
  split; unfold num_le; simpl; intros;
    repeat match goal with H : (_ <? _) = false |- _ => apply Z.ltb_ge in H end;
    apply Z.ltb_ge; lia.
Qed.

(** ** The store operations *)

Section StoreFacts.
Context {A : Type} `{Amount A}.
Implicit Types (s : Store A) (uid : Z) (oid : string).

Lemma get_user_account_lookup uid s :
  user_accounts (get_user_account uid s).2 !! uid = Some (get_user_account uid s).1.
Proof.
  unfold get_user_account. destruct (user_accounts s !! uid) eqn:E; simpl; [done|].
  apply lookup_insert_eq.
Qed.

Lemma get_user_account_other uid uid' s :
  uid ≠ uid' ->
  user_accounts (get_user_account uid s).2 !! uid' = user_accounts s !! uid'.
Proof.
  intros Hne. unfold get_user_account.
  destruct (user_accounts s !! uid); simpl; [done|]. by apply lookup_insert_ne.
Qed.

Lemma get_user_account_pending uid s :
  pending_orders (get_user_account uid s).2 = pending_orders s.
Proof. unfold get_user_account. by destruct (user_accounts s !! uid). Qed.

Lemma get_user_account_known uid s account :
  user_accounts s !! uid = Some account -> get_user_account uid s = (account, s).
Proof. intros E. unfold get_user_account. by rewrite E. Qed.

Lemma get_user_account_twice uid s :
  get_user_account uid (get_user_account uid s).2 = get_user_account uid s.
Proof.
  rewrite (get_user_account_known uid _ _ (get_user_account_lookup uid s)).
  by destruct (get_user_account uid s).
Qed.

Lemma get_user_account_put uid account s :
  get_user_account uid (put_account uid account s) = (account, put_account uid account s).
Proof. apply get_user_account_known. apply lookup_insert_eq. Qed.

Lemma put_account_put uid a1 a2 s :
  put_account uid a2 (put_account uid a1 s) = put_account uid a2 s.
Proof. unfold put_account, set_user_accounts. simpl. by rewrite insert_insert_eq. Qed.

Lemma balance_of_put uid account s :
  balance_of uid (put_account uid account s) = balance account.
Proof. unfold balance_of. by rewrite get_user_account_put. Qed.

Lemma transactions_of_put uid account s :
  transactions_of uid (put_account uid account s) = transactions account.
Proof. unfold transactions_of. by rewrite get_user_account_put. Qed.

Lemma balance_of_get uid s :
  balance_of uid (get_user_account uid s).2 = balance_of uid s.
Proof. unfold balance_of. by rewrite get_user_account_twice. Qed.

Lemma transactions_of_get uid s :
  transactions_of uid (get_user_account uid s).2 = transactions_of uid s.
Proof. unfold transactions_of. by rewrite get_user_account_twice. Qed.

Lemma update_user_balance_eq uid amt s :
  update_user_balance uid amt s =
  put_account uid {| balance := balance_of uid s ⊕ amt;
                     transactions := transactions_of uid s |}
    (get_user_account uid s).2.
Proof.
  unfold update_user_balance, balance_of, transactions_of.
  by destruct (get_user_account uid s).
Qed.

Lemma update_transaction_status_eq uid oid status s :
  update_transaction_status uid oid status s =
  put_account uid {| balance := balance_of uid s;
                     transactions := mark_first oid status (transactions_of uid s) |}
    (get_user_account uid s).2.
Proof.
  unfold update_transaction_status, balance_of, transactions_of.
  by destruct (get_user_account uid s).
Qed.

Lemma add_transaction_eq uid ty amt status oid s :
  add_transaction uid ty amt status oid s =
  put_account uid {| balance := balance_of uid s;
                     transactions := transactions_of uid s ++
                       [{| tx_type := ty; tx_amount := amt;
                           tx_status := Some status; tx_order_id := oid |}] |}
    (get_user_account uid s).2.
Proof.
  unfold add_transaction, balance_of, transactions_of.
  by destruct (get_user_account uid s).
Qed.

Lemma pending_put_account uid account s :
  pending_orders (put_account uid account s) = pending_orders s.
Proof. done. Qed.

Lemma accounts_add_pending_order oid order s :
  user_accounts (add_pending_order oid order s) = user_accounts s.
Proof. done. Qed.

Lemma accounts_remove_pending_order oid s :
  user_accounts (remove_pending_order oid s) = user_accounts s.
Proof. unfold remove_pending_order. by destruct (pending_orders s !! oid). Qed.

Lemma get_user_account_frame uid s s' :
  user_accounts s' = user_accounts s ->
  (get_user_account uid s').1 = (get_user_account uid s).1.
Proof.
  intros E. unfold get_user_account. rewrite E.
  by destruct (user_accounts s !! uid).
Qed.

Lemma balance_of_frame uid s s' :
  user_accounts s' = user_accounts s -> balance_of uid s' = balance_of uid s.
Proof. intros E. unfold balance_of. by rewrite (get_user_account_frame uid s s' E). Qed.

Lemma transactions_of_frame uid s s' :
  user_accounts s' = user_accounts s -> transactions_of uid s' = transactions_of uid s.
Proof. intros E. unfold transactions_of. by rewrite (get_user_account_frame uid s s' E). Qed.

Lemma get_pending_order_removed oid s :
  get_pending_order oid (remove_pending_order oid s) = None.
Proof.
  unfold get_pending_order, remove_pending_order.
  destruct (pending_orders s !! oid) eqn:E; simpl; [apply lookup_delete_eq | done].
Qed.

Lemma remove_pending_order_absent oid s :
  get_pending_order oid s = None -> remove_pending_order oid s = s.
Proof. unfold get_pending_order, remove_pending_order. by intros ->. Qed.

Lemma find_tx_mark_first oid status (txs : list (Transaction A)) :
  find_tx oid (mark_first oid status txs) = set_tx_status status <$> find_tx oid txs.
Proof.
  induction txs as [|tx rest IH]; simpl; [done|].
  destruct (String.eqb (tx_order_id tx) oid) eqn:E; simpl; by rewrite E.
Qed.

Lemma find_tx_app_fresh oid (txs : list (Transaction A)) tx :
  find_tx oid txs = None -> tx_order_id tx = oid ->
  find_tx oid (txs ++ [tx]) = Some tx.
Proof.
  intros Hnone Hid. induction txs as [|t rest IH]; simpl in *.
  - rewrite Hid. by rewrite String.eqb_refl.
  - destruct (String.eqb (tx_order_id t) oid); [done | by apply IH].
Qed.

End StoreFacts.

(** ** Settlement callbacks *)

Section CallbackFacts.
Context {A : Type} `{Amount A}.
Implicit Types (s : Store A) (cb : Callback A) (uid : Z) (oid : string).

(** A callback for an order that is not pending is dropped. *)
Lemma handle_deposit_callback_unknown cb oid s :
  userOrder cb = Some oid -> get_pending_order oid s = None ->
  (handle_deposit_callback cb s).1 = s.
Proof.
  intros Hid Hnone. unfold handle_deposit_callback.
  destruct (py_float (cb_amount cb)); [|done]. by rewrite Hid, Hnone.
Qed.

Lemma handle_withdraw_callback_unknown cb oid s :
  userOrder cb = Some oid -> get_pending_order oid s = None ->
  (handle_withdraw_callback cb s).1 = s.
Proof.
  intros Hid Hnone. unfold handle_withdraw_callback.
  destruct (py_float (cb_amount cb)); [|done]. by rewrite Hid, Hnone.
Qed.

(** The store a success deposit callback leaves for a pending order. *)
Lemma handle_deposit_callback_success cb oid order amt s :
  userOrder cb = Some oid ->
  get_pending_order oid s = Some order ->
  py_float (cb_amount cb) = Some amt ->
  default "success" (orderStatus cb) = "success" ->
  handle_deposit_callback cb s =
  (remove_pending_order oid
     (update_transaction_status (user_id order) oid (Some "success")
        (update_user_balance (user_id order) amt
           (get_user_account (user_id order) s).2)), Returned).
Proof.
  intros Hid Hord Hamt Hst. unfold handle_deposit_callback.
  rewrite Hamt, Hid, Hord, Hst. simpl.
  by destruct (get_user_account (user_id order) s).
Qed.

(** The store a fail withdraw callback leaves for a pending order. *)
Lemma handle_withdraw_callback_fail cb oid order s :
  userOrder cb = Some oid ->
  get_pending_order oid s = Some order ->
  py_float (cb_amount cb) ≠ None ->
  orderStatus cb = Some "fail" ->
  handle_withdraw_callback cb s =
  (remove_pending_order oid
     (update_user_balance (user_id order) (amount order)
        (update_transaction_status (user_id order) oid (Some "fail")
           (get_user_account (user_id order) s).2)), Returned).
Proof.
  intros Hid Hord Hamt Hst. unfold handle_withdraw_callback.
  destruct (py_float (cb_amount cb)); [|done].
  rewrite Hid, Hord, Hst. simpl.
  by destruct (get_user_account (user_id order) s).
Qed.

(** A handler that returned left the order out of the pending set. *)
Lemma handle_deposit_callback_returned cb oid s s' :
  userOrder cb = Some oid ->
  handle_deposit_callback cb s = (s', Returned) ->
  get_pending_order oid s' = None.
Proof.
  intros Hid. unfold handle_deposit_callback.
  destruct (py_float (cb_amount cb)); [|done]. rewrite Hid.
  destruct (get_pending_order oid s) as [order|] eqn:Hord.
  - destruct (get_user_account (user_id order) s).
    intros [= <-]. apply get_pending_order_removed.
  - by intros [= <-].
Qed.

Lemma handle_withdraw_callback_returned cb oid s s' :
  userOrder cb = Some oid ->
  handle_withdraw_callback cb s = (s', Returned) ->
  get_pending_order oid s' = None.
Proof.
  intros Hid. unfold handle_withdraw_callback.
  destruct (py_float (cb_amount cb)); [|done]. rewrite Hid.
  destruct (get_pending_order oid s) as [order|] eqn:Hord.
  - destruct (get_user_account (user_id order) s).
    case_bool_decide.
    + intros [= <-]. apply get_pending_order_removed.
    + destruct (recipient_id order); [|done].
      intros [= <-]. apply get_pending_order_removed.
  - by intros [= <-].
Qed.

Lemma balance_after_deposit uid oid amt status s :
  balance_of uid
    (remove_pending_order oid
       (update_transaction_status uid oid status
          (update_user_balance uid amt (get_user_account uid s).2)))
  = balance_of uid s ⊕ amt.
Proof.
  rewrite (balance_of_frame uid _ _ (accounts_remove_pending_order oid _)).
  rewrite update_transaction_status_eq, balance_of_put.
  rewrite update_user_balance_eq, balance_of_put.
  by rewrite balance_of_get.
Qed.

Lemma transactions_after_deposit uid oid amt status s :
  transactions_of uid
    (remove_pending_order oid
       (update_transaction_status uid oid status
          (update_user_balance uid amt (get_user_account uid s).2)))
  = mark_first oid status (transactions_of uid s).
Proof.
  rewrite (transactions_of_frame uid _ _ (accounts_remove_pending_order oid _)).
  rewrite update_transaction_status_eq, transactions_of_put.
  rewrite update_user_balance_eq, transactions_of_put.
  by rewrite transactions_of_get.
Qed.

Lemma iter_fixed {S : Type} (f : S -> S) (x : S) (n : nat) :
  f x = x -> Nat.iter n f x = x.
Proof. intros Hf. induction n as [|n IH]; simpl; [done|]. by rewrite IH. Qed.


(** C5. Once a deposit or withdraw callback for an order id has been
    handled to the end, the order is out of the pending set; and in any
    store where that id is not pending, a callback for it, of either kind
    and with any outcome and amount, leaves the whole store as it is. *)
Theorem settled_order_callbacks_are_noops cb cb' oid s s1 :
  userOrder cb = Some oid ->
  userOrder cb' = Some oid ->
  handle_deposit_callback cb s = (s1, Returned)
  ∨ handle_withdraw_callback cb s = (s1, Returned) ->
  get_pending_order oid s1 = None
  ∧ ∀ s2, get_pending_order oid s2 = None ->
          (handle_deposit_callback cb' s2).1 = s2
          ∧ (handle_withdraw_callback cb' s2).1 = s2.
Proof.
  intros Hid Hid' Hdone. split.
  - destruct Hdone as [Hd|Hw].
    + by apply (handle_deposit_callback_returned cb oid s).
    + by apply (handle_withdraw_callback_returned cb oid s).
  - intros s2 Hnone. split.
    + by apply (handle_deposit_callback_unknown cb' oid).
    + by apply (handle_withdraw_callback_unknown cb' oid).
Qed.

(** C9. The amount a success deposit callback credits is the [amount] of
    the payload, 0 when the payload has none, whatever amount the pending
    order was created with; the order is removed in either case. *)
Theorem deposit_credit_is_payload_amount cb oid order s :
  userOrder cb = Some oid ->
  get_pending_order oid s = Some order ->
  default "success" (orderStatus cb) = "success" ->
  let uid := user_id order in
  let s' := (handle_deposit_callback cb s).1 in
  match cb_amount cb with
  | AmountValue a =>
      balance_of uid s' = balance_of uid s ⊕ a ∧ get_pending_order oid s' = None
  | AmountAbsent =>
      balance_of uid s' = balance_of uid s ⊕ num_zero
      ∧ get_pending_order oid s' = None
  | AmountInvalid => s' = s
  end.
Proof.
  intros Hid Hord Hst uid s'. subst uid s'.
  destruct (cb_amount cb) as [|a|] eqn:Hamt.
  - rewrite (handle_deposit_callback_success cb oid order num_zero s); try done.
    + split; [apply balance_after_deposit | apply get_pending_order_removed].
    + by rewrite Hamt.
  - rewrite (handle_deposit_callback_success cb oid order a s); try done.
    + split; [apply balance_after_deposit | apply get_pending_order_removed].
    + by rewrite Hamt.
  - unfold handle_deposit_callback. by rewrite Hamt.
Qed.

End CallbackFacts.

(** ** Order creation *)

Section CreationFacts.
Context {A : Type} `{Amount A}.
Implicit Types (s : Store A) (w : World A) (uid : Z) (oid : string).

Lemma accounts_set_order_txid oid t f s :
  user_accounts (set_order_txid oid t f s) = user_accounts s.
Proof. unfold set_order_txid. by destruct (get_pending_order oid s). Qed.

Lemma recipient_request_accounts uid recipient amt c oid s :
  user_accounts (process_recipient_id_request uid recipient amt c oid s)
  = user_accounts s.
Proof. done. Qed.

Lemma recipient_request_pending uid recipient amt c oid s :
  get_pending_order oid (process_recipient_id_request uid recipient amt c oid s)
  = Some (withdraw_order uid recipient amt c None None).
Proof. unfold get_pending_order. simpl. apply lookup_insert_eq. Qed.

(** The store after the gateway accepted a withdrawal. *)
Lemma recipient_reply_accepted uid recipient amt c oid response s :
  resp_code response = Some 1000 ->
  process_recipient_id_reply uid recipient amt c oid response s =
  put_account uid
    {| balance := balance_of uid s ⊖ amt;
       transactions := (transactions_of uid s ++ [debit_transaction amt oid])%list |}
    (get_user_account uid
       (set_order_txid oid (default "" (resp_txid response))
          (Some (default "0" (resp_fee response))) s)).2.
Proof.
  intros Hcode. unfold process_recipient_id_reply.
  rewrite bool_decide_eq_true_2 by done.
  set (s1 := set_order_txid _ _ _ s).
  assert (Hacc : user_accounts s1 = user_accounts s) by apply accounts_set_order_txid.
  rewrite <- (balance_of_frame uid s s1 Hacc), <- (transactions_of_frame uid s s1 Hacc).
  unfold balance_of, transactions_of.
  destruct (get_user_account uid s1) as [account s2] eqn:E. simpl.
  rewrite add_transaction_eq, balance_of_put, transactions_of_put.
  rewrite get_user_account_put. simpl. by rewrite put_account_put.
Qed.

Lemma recipient_reply_rejected uid recipient amt c oid response s :
  resp_code response ≠ Some 1000 ->
  process_recipient_id_reply uid recipient amt c oid response s = s.
Proof.
  intros Hcode. unfold process_recipient_id_reply.
  by rewrite bool_decide_eq_false_2.
Qed.

Lemma recipient_reply_pending uid recipient amt c oid response s :
  resp_code response = Some 1000 ->
  get_pending_order oid
    (process_recipient_id_reply uid recipient amt c oid response
       (process_recipient_id_request uid recipient amt c oid s))
  = Some (withdraw_order uid recipient amt c
            (Some (default "" (resp_txid response)))
            (Some (default "0" (resp_fee response)))).
Proof.
  intros Hcode. rewrite recipient_reply_accepted by done.
  unfold get_pending_order. rewrite pending_put_account, get_user_account_pending.
  unfold set_order_txid. rewrite recipient_request_pending. simpl.
  apply lookup_insert_eq.
Qed.

(** What [process_recipient_id] does to the store when the recipient
    exists and the conversation holds the amount and the coin. *)
Lemma process_recipient_id_store uid recipient chk oid response amt c w :
  recipient_exists chk = true ->
  data_amount (context_of uid w) = Some amt ->
  data_coin (context_of uid w) = Some c ->
  store (process_recipient_id uid (Some recipient) chk oid response w) =
  process_recipient_id_reply uid recipient amt c oid response
    (process_recipient_id_request uid recipient amt c oid (store w)).
Proof.
  intros Hex Hamt Hcoin. unfold process_recipient_id.
  by rewrite Hex, Hamt, Hcoin.
Qed.



End CreationFacts.

(** ** Which accounts and orders an operation touches *)

Section Frames.
Context {A : Type} `{Amount A}.
Implicit Types (s : Store A) (uid : Z) (oid : string).

(** [touches uid s s']: from [s] to [s'] no account but that of [uid] changed. *)
Definition touches (uid : Z) (s s' : Store A) : Prop :=
  ∀ uid0, uid0 ≠ uid -> user_accounts s' !! uid0 = user_accounts s !! uid0.

Lemma touches_refl uid s : touches uid s s.
Proof. by intros uid0 _. Qed.

Lemma touches_frame uid s s1 s2 :
  user_accounts s2 = user_accounts s1 -> touches uid s s1 -> touches uid s s2.
Proof. intros E Ht uid0 Hne. rewrite E. by apply Ht. Qed.

Lemma touches_get uid s s1 :
  touches uid s s1 -> touches uid s (get_user_account uid s1).2.
Proof.
  intros Ht uid0 Hne. rewrite get_user_account_other by done. by apply Ht.
Qed.

Lemma touches_put uid account s s1 :
  touches uid s s1 -> touches uid s (put_account uid account s1).
Proof.
  intros Ht uid0 Hne. unfold put_account. simpl.
  rewrite lookup_insert_ne by done. by apply Ht.
Qed.

Lemma touches_update_user_balance uid amt s s1 :
  touches uid s s1 -> touches uid s (update_user_balance uid amt s1).
Proof.
  intros Ht. rewrite update_user_balance_eq. by apply touches_put, touches_get.
Qed.

Lemma touches_update_transaction_status uid oid status s s1 :
  touches uid s s1 -> touches uid s (update_transaction_status uid oid status s1).
Proof.
  intros Ht. rewrite update_transaction_status_eq. by apply touches_put, touches_get.
Qed.

Lemma touches_add_transaction uid ty amt status oid s s1 :
  touches uid s s1 -> touches uid s (add_transaction uid ty amt status oid s1).
Proof.
  intros Ht. rewrite add_transaction_eq. by apply touches_put, touches_get.
Qed.

Lemma touches_remove_pending_order uid oid s s1 :
  touches uid s s1 -> touches uid s (remove_pending_order oid s1).
Proof. apply touches_frame, accounts_remove_pending_order. Qed.

Lemma touches_add_pending_order uid oid order s s1 :
  touches uid s s1 -> touches uid s (add_pending_order oid order s1).
Proof. by apply touches_frame. Qed.

Lemma touches_set_order_txid uid oid t f s s1 :
  touches uid s s1 -> touches uid s (set_order_txid oid t f s1).
Proof. apply touches_frame, accounts_set_order_txid. Qed.

Lemma balance_of_other uid uid0 s s' :
  touches uid s s' -> uid0 ≠ uid -> balance_of uid0 s' = balance_of uid0 s.
Proof.
  intros Ht Hne. unfold balance_of, get_user_account.
  rewrite (Ht uid0 Hne). by destruct (user_accounts s !! uid0).
Qed.

Lemma balance_of_known uid s account :
  user_accounts s !! uid = Some account -> balance_of uid s = balance account.
Proof. intros E. unfold balance_of. by rewrite (get_user_account_known uid s account E). Qed.

Lemma balance_of_update_user_balance uid amt s :
  balance_of uid (update_user_balance uid amt s) = balance_of uid s ⊕ amt.
Proof. by rewrite update_user_balance_eq, balance_of_put. Qed.

Lemma balance_of_update_transaction_status uid oid status s :
  balance_of uid (update_transaction_status uid oid status s) = balance_of uid s.
Proof. by rewrite update_transaction_status_eq, balance_of_put. Qed.

Lemma balance_of_add_transaction uid ty amt status oid s :
  balance_of uid (add_transaction uid ty amt status oid s) = balance_of uid s.
Proof. by rewrite add_transaction_eq, balance_of_put. Qed.

Lemma balance_of_remove_pending_order uid oid s :
  balance_of uid (remove_pending_order oid s) = balance_of uid s.
Proof. apply balance_of_frame, accounts_remove_pending_order. Qed.

Lemma balance_of_add_pending_order uid oid order s :
  balance_of uid (add_pending_order oid order s) = balance_of uid s.
Proof. by apply balance_of_frame. Qed.

Lemma balance_of_set_order_txid uid oid t f s :
  balance_of uid (set_order_txid oid t f s) = balance_of uid s.
Proof. apply balance_of_frame, accounts_set_order_txid. Qed.

Lemma pending_update_user_balance uid amt s :
  pending_orders (update_user_balance uid amt s) = pending_orders s.
Proof.
  rewrite update_user_balance_eq, pending_put_account. apply get_user_account_pending.
Qed.

Lemma pending_update_transaction_status uid oid status s :
  pending_orders (update_transaction_status uid oid status s) = pending_orders s.
Proof.
  rewrite update_transaction_status_eq, pending_put_account.
  apply get_user_account_pending.
Qed.

Lemma pending_add_transaction uid ty amt status oid s :
  pending_orders (add_transaction uid ty amt status oid s) = pending_orders s.
Proof.
  rewrite add_transaction_eq, pending_put_account. apply get_user_account_pending.
Qed.

(** [pending_within s s']: every pending order of [s'] is one of [s]. *)
Definition pending_within (s s' : Store A) : Prop :=
  ∀ oid order, pending_orders s' !! oid = Some order ->
               pending_orders s !! oid = Some order.

Lemma pending_within_eq s s' :
  pending_orders s' = pending_orders s -> pending_within s s'.
Proof. intros E oid order. by rewrite E. Qed.

Lemma pending_within_remove oid s s' :
  pending_orders s' = pending_orders s ->
  pending_within s (remove_pending_order oid s').
Proof.
  intros E oid0 order. unfold remove_pending_order.
  destruct (pending_orders s' !! oid) eqn:Hl; simpl; rewrite ?E; [|done].
  intros Hd. by apply lookup_delete_Some in Hd as [_ Hd].
Qed.

End Frames.

Create HintDb touch.
Create Rewrite HintDb bal.
Create Rewrite HintDb pend.

#[export] Hint Resolve touches_refl touches_get touches_put
  touches_update_user_balance touches_update_transaction_status
  touches_add_transaction touches_remove_pending_order
  touches_add_pending_order touches_set_order_txid : touch.

#[export] Hint Rewrite @balance_of_update_user_balance
  @balance_of_update_transaction_status @balance_of_add_transaction
  @balance_of_remove_pending_order @balance_of_add_pending_order
  @balance_of_set_order_txid @balance_of_get @balance_of_put : bal.

#[export] Hint Rewrite @pending_update_user_balance
  @pending_update_transaction_status @pending_add_transaction
  @pending_put_account @get_user_account_pending : pend.

(** ** The balance invariant *)

Section Invariant.
Context {A : Type} `{AmountLaws A}.
Implicit Types (s : Store A) (w : World A) (uid : Z) (oid : string).

(** From [s] to [s'] every balance stayed or grew by an amount that is not
    negative. *)
Definition raised (s s' : Store A) : Prop :=
  ∀ uid, balance_of uid s' = balance_of uid s
         ∨ ∃ x, num_le num_zero x ∧ balance_of uid s' = balance_of uid s ⊕ x.

Definition balances_nonneg (s : Store A) : Prop :=
  ∀ uid, num_le num_zero (balance_of uid s).

Definition orders_at_least_one (s : Store A) : Prop :=
  ∀ oid order, pending_orders s !! oid = Some order -> num_le num_one (amount order).

(** A conversation that waits for the recipient holds an amount that passed
    both tests of [process_withdraw_amount] and is still covered. *)
Definition reserved_covered (w : World A) : Prop :=
  ∀ uid ctx, fsm w !! uid = Some ctx ->
    fsm_state ctx = Some waiting_for_recipient_tg_id ->
    ∃ a, data_amount ctx = Some a ∧ num_le num_one a
         ∧ num_le a (balance_of uid (store w)).

Definition world_ok (w : World A) : Prop :=
  balances_nonneg (store w) ∧ orders_at_least_one (store w) ∧ reserved_covered w.

(** The deposit callbacks of a run carry no negative amount. *)
Definition callback_amount_nonneg (ev : Event A) : Prop :=
  match ev with
  | EvDepositCallback cb =>
      match py_float (cb_amount cb) with
      | Some a => num_le num_zero a
      | None => True
      end
  | _ => True
  end.

Lemma raised_refl s : raised s s.
Proof. intros uid. by left. Qed.

Lemma raised_touch uid s s' :
  touches uid s s' ->
  (balance_of uid s' = balance_of uid s
   ∨ ∃ x, num_le num_zero x ∧ balance_of uid s' = balance_of uid s ⊕ x) ->
  raised s s'.
Proof.
  intros Ht Hb uid0. destruct (decide (uid0 = uid)) as [->|Hne]; [done|].
  left. by apply (balance_of_other uid).
Qed.

Lemma raised_nonneg s s' : raised s s' -> balances_nonneg s -> balances_nonneg s'.
Proof.
  intros Hr Hs uid. destruct (Hr uid) as [->|(x & Hx & ->)]; [done|].
  by apply add_nonneg.
Qed.

Lemma raised_le s s' uid a :
  raised s s' -> num_le a (balance_of uid s) -> num_le a (balance_of uid s').
Proof.
  intros Hr Ha. destruct (Hr uid) as [->|(x & Hx & ->)]; [done|].
  by apply le_add_nonneg.
Qed.

Lemma orders_within s s' :
  pending_within s s' -> orders_at_least_one s -> orders_at_least_one s'.
Proof. intros Hw Hs oid order Hl. by apply (Hs oid), Hw. Qed.

Lemma orders_add oid order s :
  num_le num_one (amount order) -> orders_at_least_one s ->
  orders_at_least_one (add_pending_order oid order s).
Proof.
  intros Ho Hs oid0 order0. unfold add_pending_order. simpl.
  rewrite lookup_insert. case_decide.
  - by intros [= <-].
  - apply Hs.
Qed.

Lemma orders_same s s' :
  pending_orders s' = pending_orders s -> orders_at_least_one s ->
  orders_at_least_one s'.
Proof. intros E. apply orders_within. by apply pending_within_eq. Qed.

Lemma orders_set_order_txid oid t f s :
  orders_at_least_one s -> orders_at_least_one (set_order_txid oid t f s).
Proof.
  intros Hs. unfold set_order_txid.
  destruct (get_pending_order oid s) as [order|] eqn:E; [|done].
  apply orders_add; [|done]. simpl. by apply (Hs oid).
Qed.

(** *** The callbacks raise balances *)

Lemma handle_deposit_callback_raised cb s :
  match py_float (cb_amount cb) with
  | Some a => num_le num_zero a
  | None => True
  end ->
  raised s (handle_deposit_callback cb s).1
  ∧ pending_within s (handle_deposit_callback cb s).1.
Proof.
  intros Hcb. unfold handle_deposit_callback.
  destruct (py_float (cb_amount cb)) as [amt|];
    [|split; [apply raised_refl | by apply pending_within_eq]].
  destruct (userOrder cb) as [oid|];
    [|split; [apply raised_refl | by apply pending_within_eq]].
  destruct (get_pending_order oid s) as [order|] eqn:Hord;
    [|split; [apply raised_refl | by apply pending_within_eq]].
  pose proof (get_user_account_twice (user_id order) s) as Hget.
  destruct (get_user_account (user_id order) s) as [account s1] eqn:E.
  assert (Hs1 : s1 = (get_user_account (user_id order) s).2) by (by rewrite E).
  simpl. destruct (String.eqb _ "success"); split.
  - apply (raised_touch (user_id order)).
    + subst s1. auto with touch.
    + right. exists amt. split; [done|]. subst s1. by autorewrite with bal.
  - apply pending_within_remove. subst s1. by autorewrite with pend.
  - apply (raised_touch (user_id order)).
    + subst s1. auto with touch.
    + left. subst s1. by autorewrite with bal.
  - apply pending_within_remove. subst s1. by autorewrite with pend.
Qed.

Lemma handle_withdraw_callback_raised cb s :
  orders_at_least_one s ->
  raised s (handle_withdraw_callback cb s).1
  ∧ pending_within s (handle_withdraw_callback cb s).1.
Proof.
  intros Hos. unfold handle_withdraw_callback.
  destruct (py_float (cb_amount cb)) as [amt|];
    [|split; [apply raised_refl | by apply pending_within_eq]].
  destruct (userOrder cb) as [oid|];
    [|split; [apply raised_refl | by apply pending_within_eq]].
  destruct (get_pending_order oid s) as [order|] eqn:Hord;
    [|split; [apply raised_refl | by apply pending_within_eq]].
  destruct (get_user_account (user_id order) s) as [account s1] eqn:E.
  assert (Hs1 : s1 = (get_user_account (user_id order) s).2) by (by rewrite E).
  case_bool_decide; [|destruct (recipient_id order)]; simpl; split.
  - apply (raised_touch (user_id order)).
    + subst s1. auto with touch.
    + right. exists (amount order). split.
      * apply le_zero_of_one_le. by apply (Hos oid).
      * subst s1. by autorewrite with bal.
  - apply pending_within_remove. subst s1. by autorewrite with pend.
  - apply (raised_touch (user_id order)).
    + subst s1. auto with touch.
    + left. subst s1. by autorewrite with bal.
  - apply pending_within_remove. subst s1. by autorewrite with pend.
  - apply (raised_touch (user_id order)).
    + subst s1. auto with touch.
    + left. subst s1. by autorewrite with bal.
  - apply pending_within_eq. subst s1. by autorewrite with pend.
Qed.

(** *** The handlers of a user act on that user's account *)

Lemma world_ok_raised w s' :
  world_ok w -> raised (store w) s' -> orders_at_least_one s' ->
  world_ok (with_store s' w).
Proof.
  intros (Hb & Ho & Hc) Hr Ho'. split_and!; [by apply (raised_nonneg (store w))|done|].
  intros uid ctx Hl Hst. destruct (Hc uid ctx Hl Hst) as (a & Ha & H1 & Hle).
  exists a. split_and!; [done..|]. by apply (raised_le (store w)).
Qed.

Lemma world_ok_acting uid w s' f :
  world_ok w ->
  touches uid (store w) s' ->
  num_le num_zero (balance_of uid s') ->
  orders_at_least_one s' ->
  (∀ uid0, uid0 ≠ uid -> f !! uid0 = fsm w !! uid0) ->
  (∀ ctx, f !! uid = Some ctx ->
     fsm_state ctx = Some waiting_for_recipient_tg_id ->
     ∃ a, data_amount ctx = Some a ∧ num_le num_one a
          ∧ num_le a (balance_of uid s')) ->
  world_ok {| store := s'; fsm := f |}.
Proof.
  intros (Hb & Ho & Hc) Ht Hb' Ho' Hf Hctx. split_and!; simpl.
  - intros uid0. destruct (decide (uid0 = uid)) as [->|Hne]; [done|].
    rewrite (balance_of_other uid uid0 (store w) s') by done. apply Hb.
  - done.
  - intros uid0 ctx Hl Hst. simpl in *.
    destruct (decide (uid0 = uid)) as [->|Hne]; [by apply Hctx|].
    rewrite Hf in Hl by done.
    destruct (Hc uid0 ctx Hl Hst) as (a & Ha & H1 & Hle).
    exists a. split_and!; [done..|].
    by rewrite (balance_of_other uid uid0 (store w) s').
Qed.

Lemma in_state_lookup uid st w :
  in_state uid st w = true ->
  ∃ ctx, fsm w !! uid = Some ctx ∧ fsm_state ctx = Some st
         ∧ context_of uid w = ctx.
Proof.
  unfold in_state, context_of. intros Hin. apply bool_decide_eq_true in Hin.
  destruct (fsm w !! uid) as [ctx|]; [by exists ctx | done].
Qed.

Lemma covered_kept uid w s' :
  world_ok w -> balance_of uid s' = balance_of uid (store w) ->
  ∀ ctx, fsm w !! uid = Some ctx ->
    fsm_state ctx = Some waiting_for_recipient_tg_id ->
    ∃ a, data_amount ctx = Some a ∧ num_le num_one a
         ∧ num_le a (balance_of uid s').
Proof.
  intros (_ & _ & Hc) Hbal ctx Hl Hst. rewrite Hbal. by apply Hc.
Qed.

Lemma start_command_ok uid w : world_ok w -> world_ok (start_command uid w).
Proof.
  intros Hw. unfold start_command, with_store.
  apply (world_ok_acting uid w); auto with touch.
  - rewrite balance_of_get. apply Hw.
  - apply (orders_same (store w)); [by autorewrite with pend | apply Hw].
  - apply covered_kept; [done | apply balance_of_get].
Qed.

Lemma select_coin_for_topup_ok uid c w :
  world_ok w -> world_ok (select_coin_for_topup uid c w).
Proof.
  intros Hw. unfold select_coin_for_topup.
  apply (world_ok_acting uid w); auto with touch; try apply Hw.
  - intros uid0 Hne. by rewrite lookup_insert_ne.
  - intros ctx. rewrite lookup_insert_eq. by intros [= <-].
Qed.

Lemma select_coin_for_withdraw_ok uid c w :
  world_ok w -> world_ok (select_coin_for_withdraw uid c w).
Proof.
  intros Hw. unfold select_coin_for_withdraw.
  case_bool_decide; [by apply select_coin_for_topup_ok|].
  apply (world_ok_acting uid w); auto with touch.
  - rewrite balance_of_get. apply Hw.
  - apply (orders_same (store w)); [by autorewrite with pend | apply Hw].
  - intros uid0 Hne. by rewrite lookup_insert_ne.
  - intros ctx. rewrite lookup_insert_eq. by intros [= <-].
Qed.

Lemma process_topup_amount_ok uid text oid response w :
  world_ok w -> world_ok (process_topup_amount uid text oid response w).
Proof.
  intros Hw. unfold process_topup_amount.
  destruct text as [amt|]; [|done].
  destruct (num_lt amt num_one) eqn:Hone; [done|].
  destruct (data_coin (context_of uid w)) as [c|]; [|done].
  unfold state_clear, with_store. simpl.
  unfold process_topup_amount_reply, process_topup_amount_request.
  apply (world_ok_acting uid w); [done|..].
  - case_bool_decide; auto with touch.
  - case_bool_decide; autorewrite with bal; apply Hw.
  - case_bool_decide.
    + eapply orders_same; [by autorewrite with pend|].
      apply orders_set_order_txid, orders_add; [done | apply Hw].
    + apply orders_add; [done | apply Hw].
  - intros uid0 Hne. by rewrite lookup_delete_ne.
  - intros ctx. by rewrite lookup_delete_eq.
Qed.

Lemma withdraw_amount_check_spec uid amt s :
  let '(ok, s1) := withdraw_amount_check uid amt s in
  touches uid s s1 ∧ balance_of uid s1 = balance_of uid s
  ∧ pending_orders s1 = pending_orders s
  ∧ (ok = true -> num_le num_one amt ∧ num_le amt (balance_of uid s1)).
Proof.
  unfold withdraw_amount_check.
  destruct (num_lt amt num_one) eqn:Hone.
  { split_and!; auto with touch. done. }
  pose proof (balance_of_get uid s) as Hbal.
  pose proof (get_user_account_pending uid s) as Hpend.
  assert (Ht : touches uid s (get_user_account uid s).2) by auto with touch.
  assert (Hacc : balance_of uid s = balance (get_user_account uid s).1) by done.
  destruct (get_user_account uid s) as [account s1] eqn:E. simpl in *.
  destruct (num_lt (balance account) amt) eqn:Hcmp; split_and!; try done.
  intros _. split; [done|]. by rewrite Hbal, Hacc.
Qed.

Lemma process_withdraw_amount_ok uid text w :
  world_ok w -> world_ok (process_withdraw_amount uid text w).
Proof.
  intros Hw. unfold process_withdraw_amount.
  destruct text as [amt|]; [|done].
  pose proof (withdraw_amount_check_spec uid amt (store w)) as Hchk.
  destruct (withdraw_amount_check uid amt (store w)) as [ok s1].
  destruct Hchk as (Ht & Hbal & Hpend & Hok).
  assert (Hkeep : world_ok (with_store s1 w)).
  { apply (world_ok_acting uid w); try done.
    - rewrite Hbal. apply Hw.
    - apply (orders_same (store w)); [done | apply Hw].
    - by apply covered_kept. }
  destruct ok; [|done].
  destruct (data_coin (context_of uid w)); [|done].
  apply (world_ok_acting uid w); try done.
  - rewrite Hbal. apply Hw.
  - apply (orders_same (store w)); [done | apply Hw].
  - intros uid0 Hne. by rewrite lookup_insert_ne.
  - intros ctx. rewrite lookup_insert_eq. intros [= <-] _. simpl.
    exists amt. destruct (Hok eq_refl). by split_and!.
Qed.

Lemma process_recipient_id_ok uid text chk oid response w :
  world_ok w ->
  in_state uid waiting_for_recipient_tg_id w = true ->
  world_ok (process_recipient_id uid text chk oid response w).
Proof.
  intros Hw Hin. unfold process_recipient_id.
  destruct text as [recipient|]; [|done].
  destruct (negb (recipient_exists chk)); [done|].
  destruct (in_state_lookup _ _ _ Hin) as (ctx & Hl & Hst & Hctx).
  rewrite Hctx.
  destruct Hw as (Hb & Ho & Hc).
  destruct (Hc uid ctx Hl Hst) as (a & Ha & H1 & Hle).
  rewrite Ha. destruct (data_coin ctx) as [c|]; [|done].
  unfold state_clear, with_store. simpl.
  apply (world_ok_acting uid w); [done|..].
  - unfold process_recipient_id_reply, process_recipient_id_request.
    case_bool_decide; [|auto with touch].
    destruct (get_user_account uid _) as [account s2] eqn:E.
    apply touches_add_transaction, touches_put.
    replace s2 with (get_user_account uid
      (set_order_txid oid (default "" (resp_txid response))
         (Some (default "0" (resp_fee response)))
         (add_pending_order oid
            {| user_id := uid; recipient_id := Some recipient; amount := a;
               coin := c; order_type := "withdraw"; order_status := "pending";
               txid := None; fee := None |} (store w)))).2 by (by rewrite E).
    auto with touch.
  - destruct (decide (resp_code response = Some 1000)) as [Hcode|Hcode].
    + rewrite recipient_reply_accepted by done. rewrite balance_of_put.
      cbn [balance]. unfold process_recipient_id_request.
      rewrite balance_of_add_pending_order. by apply sub_nonneg.
    + rewrite recipient_reply_rejected by done.
      unfold process_recipient_id_request.
      rewrite balance_of_add_pending_order. apply Hb.
  - destruct (decide (resp_code response = Some 1000)) as [Hcode|Hcode].
    + rewrite recipient_reply_accepted by done.
      eapply orders_same; [by autorewrite with pend|].
      apply orders_set_order_txid, orders_add; done.
    + rewrite recipient_reply_rejected by done. apply orders_add; done.
  - intros uid0 Hne. by rewrite lookup_delete_ne.
  - intros ctx0. by rewrite lookup_delete_eq.
Qed.

Lemma step_ok ev w :
  callback_amount_nonneg ev -> world_ok w -> world_ok (step ev w).
Proof.
  intros Hev Hw. destruct ev; simpl.
  - by apply start_command_ok.
  - by apply select_coin_for_topup_ok.
  - by apply select_coin_for_withdraw_ok.
  - destruct (in_state _ _ _); [by apply process_topup_amount_ok | done].
  - destruct (in_state _ _ _); [by apply process_withdraw_amount_ok | done].
  - destruct (in_state _ _ _) eqn:Hin; [by apply process_recipient_id_ok | done].
  - destruct (handle_deposit_callback_raised callback_data (store w) Hev) as [Hr Hp].
    apply world_ok_raised; [done..|]. by apply (orders_within (store w)), Hw.
  - destruct (handle_withdraw_callback_raised callback_data (store w)) as [Hr Hp];
      [apply Hw|].
    apply world_ok_raised; [done..|]. by apply (orders_within (store w)), Hw.
Qed.

Lemma empty_world_ok : world_ok (empty_world (A:=A)).
Proof.
  split_and!.
  - intros uid. apply le_zero_zero.
  - intros oid order. simpl. by rewrite lookup_empty.
  - intros uid ctx. simpl. by rewrite lookup_empty.
Qed.

Lemma run_ok evs w :
  Forall callback_amount_nonneg evs -> world_ok w -> world_ok (run evs w).
Proof.
  intros Hevs. revert w. induction Hevs as [|ev evs Hev _ IH]; intros w Hw; [done|].
  simpl. apply IH. by apply step_ok.
Qed.


End Invariant.

(** ** Signatures and the webhook entry point *)

Section SignatureFacts.
Variable sha256 : list N -> list N.
Variable b64encode : list N -> pystr.
Implicit Types (secret p : pystr) (s : option pystr).

Lemma verify_signature_true secret p s :
  verify_signature sha256 b64encode secret p s = true ↔
  ∃ bytes, utf8_encode (p ++ secret)%list = Some bytes
           ∧ s = Some (b64encode (sha256 bytes)).
Proof.
  unfold verify_signature. destruct (utf8_encode (p ++ secret)%list) as [bytes|].
  - rewrite bool_decide_eq_true. split.
    + intros <-. by exists bytes.
    + by intros (bytes' & [= <-] & ->).
  - split; [done | by intros (? & ? & _)].
Qed.

(** C8. [verify_signature] accepts a payload and a received signature
    exactly when the payload with the secret appended has a UTF-8 encoding
    and the received signature is the base64 text of its SHA-256 digest.
    So every signature that [generate_sign] returns under the same secret is
    accepted, and a missing signature header or a text that cannot be
    encoded gives [false], not an exception. *)
Theorem verify_signature_spec secret p s :
  (verify_signature sha256 b64encode secret p s = true ↔
   ∃ bytes, utf8_encode (p ++ secret)%list = Some bytes
            ∧ s = Some (b64encode (sha256 bytes)))
  ∧ (verify_signature sha256 b64encode secret p s = true ↔
     is_Some s ∧ generate_sign sha256 b64encode secret p = s)
  ∧ verify_signature sha256 b64encode secret p
      (generate_sign sha256 b64encode secret p)
    = bool_decide (is_Some (generate_sign sha256 b64encode secret p))
  ∧ verify_signature sha256 b64encode secret p None = false
  ∧ (utf8_encode (p ++ secret)%list = None ->
     verify_signature sha256 b64encode secret p s = false).
Proof.
  split_and!.
  - apply verify_signature_true.
  - rewrite verify_signature_true. unfold generate_sign.
    destruct (utf8_encode (p ++ secret)%list) as [bytes|]; split.
    + intros (bytes' & [= <-] & ->). by split; [eexists|].
    + intros [_ <-]. by exists bytes.
    + by intros (? & ? & _).
    + by intros [[? ->] ?].
  - unfold verify_signature, generate_sign.
    destruct (utf8_encode (p ++ secret)%list) as [bytes|].
    + rewrite bool_decide_eq_true_2 by done.
      symmetry. apply bool_decide_eq_true_2. by eexists.
    + symmetry. apply bool_decide_eq_false_2. by intros [? ?].
  - unfold verify_signature. by destruct (utf8_encode (p ++ secret)%list).
  - intros Hnone. unfold verify_signature. by rewrite Hnone.
Qed.

End SignatureFacts.

Section WebhookFacts.
Context {A : Type} `{Amount A}.
Variable sha256 : list N -> list N.
Variable b64encode : list N -> pystr.
Variable decode_payload : pystr -> option (Callback A).
Variable KKPAY_MERCHANT_ID : pystr.
Variable KKPAY_SECRET : pystr.

(** C7. A request whose KKPAY-ID header is not the configured merchant
    id, or whose KKPAY-SIGN header does not verify over the body text, is
    answered with status 401 and leaves the store as it was. The decoder of
    the payload is arbitrary here and has no part in the answer. *)
Theorem unauthenticated_request_rejected (request : Request) (s : Store A) :
  hdr_id request ≠ Some KKPAY_MERCHANT_ID
  ∨ (∃ body, req_text request = Some body
             ∧ verify_signature sha256 b64encode KKPAY_SECRET body
                 (hdr_sign request) = false) ->
  kkpay_webhook_handler sha256 b64encode decode_payload KKPAY_MERCHANT_ID
    KKPAY_SECRET request s = (s, 401).
Proof.
  intros Hbad. unfold kkpay_webhook_handler.
  case_bool_decide as Hid; simpl; [|done].
  destruct Hbad as [Hne | (body & Hbody & Hsig)]; [done|].
  by rewrite Hbody, Hsig.
Qed.

End WebhookFacts.

(** ** Two withdrawals of one user *)

Section RaceFacts.
Context {A : Type} `{Amount A}.
Implicit Types (s : Store A) (r : WithdrawRequest A).

Lemma withdraw_amount_check_result uid amt s :
  (withdraw_amount_check uid amt s).1
  = negb (num_lt amt num_one) && negb (num_lt (balance_of uid s) amt)
  ∧ balance_of uid (withdraw_amount_check uid amt s).2 = balance_of uid s.
Proof.
  unfold withdraw_amount_check.
  destruct (num_lt amt num_one); [done|].
  pose proof (balance_of_get uid s) as Hget.
  assert (Hacc : balance_of uid s = balance (get_user_account uid s).1) by done.
  destruct (get_user_account uid s) as [account s1]. simpl in *.
  rewrite Hacc. destruct (num_lt (balance account) amt); simpl; by rewrite Hget, Hacc.
Qed.

Lemma advance3_eq uid r s :
  advance3 uid r s =
  let '(ok, s1) := withdraw_amount_check uid (wr_amount r) s in
  if ok then
    (if bool_decide (resp_code (wr_response r) = Some 1000)
     then Reserved else Refused,
     process_recipient_id_reply uid (wr_recipient r) (wr_amount r) (wr_coin r)
       (wr_order r) (wr_response r)
       (process_recipient_id_request uid (wr_recipient r) (wr_amount r)
          (wr_coin r) (wr_order r) s1))
  else (Refused, s1).
Proof.
  unfold advance3. cbn [advance].
  destruct (withdraw_amount_check uid (wr_amount r) s) as [[] s1]; done.
Qed.

Lemma race_one_after_the_other uid r1 r2 s :
  race uid r1 r2 one_after_the_other s =
  {| first_phase := (advance3 uid r1 s).1;
     second_phase := (advance3 uid r2 (advance3 uid r1 s).2).1;
     shared := (advance3 uid r2 (advance3 uid r1 s).2).2 |}.
Proof.
  unfold race, one_after_the_other, advance3. cbn [foldl].
  unfold race_step. cbn [first_phase second_phase shared].
  destruct (advance uid r1 Entered s) as [p1 s1].
  cbn [first_phase second_phase shared].
  destruct (advance uid r1 p1 s1) as [p2 s2].
  cbn [first_phase second_phase shared].
  destruct (advance uid r1 p2 s2) as [p3 s3].
  cbn [first_phase second_phase shared fst snd].
  destruct (advance uid r2 Entered s3) as [q1 t1].
  cbn [first_phase second_phase shared].
  destruct (advance uid r2 q1 t1) as [q2 t2].
  cbn [first_phase second_phase shared].
  by destruct (advance uid r2 q2 t2) as [q3 t3].
Qed.

Lemma advance3_reserved uid r s :
  (advance3 uid r s).1 = Reserved ->
  balance_of uid (advance3 uid r s).2 = balance_of uid s ⊖ wr_amount r.
Proof.
  rewrite advance3_eq.
  destruct (withdraw_amount_check_result uid (wr_amount r) s) as [_ Hbal].
  destruct (withdraw_amount_check uid (wr_amount r) s) as [[] s1]; [|done].
  cbn [fst snd] in *. case_bool_decide as Hcode; [|done]. intros _.
  rewrite recipient_reply_accepted by done. rewrite balance_of_put.
  cbn [balance]. unfold process_recipient_id_request.
  by rewrite balance_of_add_pending_order, Hbal.
Qed.

Lemma advance3_refused uid r s :
  num_lt (balance_of uid s) (wr_amount r) = true ->
  (advance3 uid r s).1 = Refused
  ∧ balance_of uid (advance3 uid r s).2 = balance_of uid s.
Proof.
  intros Hexceeds. rewrite advance3_eq.
  destruct (withdraw_amount_check_result uid (wr_amount r) s) as [Hok Hbal].
  rewrite Hexceeds, andb_false_r in Hok.
  destruct (withdraw_amount_check uid (wr_amount r) s) as [ok s1].
  cbn [fst snd] in *. by subst ok.
Qed.

(** C10, as the code has it. Nothing makes the amount check and the
    deduction of a withdrawal one step. Only when the second withdrawal of
    a user starts after the first has ended is its amount tested against
    what the first one left: if the first reserved its amount and the second
    amount exceeds the rest of the balance, the second is refused and the
    balance is the one the first withdrawal left. *)
Theorem serial_withdrawals_second_refused uid r1 r2 s :
  let final := race uid r1 r2 one_after_the_other s in
  first_phase final = Reserved ->
  num_lt (balance_of uid s ⊖ wr_amount r1) (wr_amount r2) = true ->
  second_phase final = Refused
  ∧ balance_of uid (shared final) = balance_of uid s ⊖ wr_amount r1.
Proof.
  intros final. subst final. rewrite race_one_after_the_other.
  cbn [first_phase second_phase shared]. intros Hfirst Hexceeds.
  pose proof (advance3_reserved uid r1 s Hfirst) as Hb1.
  destruct (advance3_refused uid r2 (advance3 uid r1 s).2) as [Hp Hb2].
  { by rewrite Hb1. }
  by rewrite Hp, Hb2, Hb1.
Qed.

End RaceFacts.

(** ** Runs on concrete data (binary64 amounts unless said otherwise) *)

Definition accepted : Response :=
  {| resp_code := Some 1000; resp_txid := Some "T1"; resp_fee := Some "0" |}.

Definition rejected : Response :=
  {| resp_code := Some 9999; resp_txid := None; resp_fee := None |}.

Definition recipient_known : CheckResult :=
  {| chk_code := Some 10000; chk_isExist := true |}.

Definition callback {A : Type} (kind oid : string) (amt : amount_field A)
    (status : string) : Callback A :=
  {| businessType := Some kind; userOrder := Some oid; cb_amount := amt;
     orderStatus := Some status |}.

Definition topup_id : string := "topup_1_0a1b2c3d".
Definition withdraw_id : string := "withdraw_1_4e5f6a7b".
Definition withdraw_id' : string := "withdraw_1_8c9d0e1f".

(** User 1 asks for a deposit of [amt] and the gateway accepts. *)
Definition deposit_ordered {A : Type} `{Amount A} (amt : A) : World A :=
  run [EvSelectCoinTopup 1 "USDT"; EvTopupAmount 1 (Some amt) topup_id accepted]
    empty_world.

(** ... and the success callback for it arrives with the same amount. *)
Definition funded {A : Type} `{Amount A} (amt : A) : World A :=
  step (EvDepositCallback (callback "deposit" topup_id (AmountValue amt) "success"))
    (deposit_ordered amt).

(** User 1, funded with [b], has entered the amount [amt] to withdraw. *)
Definition withdraw_entered {A : Type} `{Amount A} (b amt : A) : World A :=
  run [EvSelectCoinWithdraw 1 "USDT"; EvWithdrawAmount 1 (Some amt)] (funded b).


Lemma settled_order_callbacks_are_noops_witness :
  let s := store (deposit_ordered 100%float) in
  let cb := callback "deposit" topup_id (AmountValue 100%float) "success" in
  let cb' := callback "withdraw" topup_id (AmountValue 100%float) "fail" in
  let s1 := (handle_deposit_callback cb s).1 in
  get_pending_order topup_id s1 = None
  ∧ (handle_deposit_callback cb' s1).1 = s1
  ∧ (handle_withdraw_callback cb' s1).1 = s1.
Proof.
  intros s cb cb' s1.
  destruct (settled_order_callbacks_are_noops cb cb' topup_id s s1
              eq_refl eq_refl (or_introl eq_refl)) as [Hgone Hnoop].
  split; [exact Hgone | exact (Hnoop s1 Hgone)].
Defined.

Lemma deposit_credit_is_payload_amount_witness :
  let s := store (deposit_ordered 100%float) in
  let cb := callback "deposit" topup_id (AmountValue 40%float) "success" in
  (amount <$> get_pending_order topup_id s) = Some 100%float
  ∧ balance_of 1 (handle_deposit_callback cb s).1 = 40%float
  ∧ get_pending_order topup_id (handle_deposit_callback cb s).1 = None.
Proof.
  intros s cb.
  destruct (deposit_credit_is_payload_amount cb topup_id
              {| user_id := 1; recipient_id := None; amount := 100%float;
                 coin := "USDT"; order_type := "topup"; order_status := "pending";
                 txid := Some "T1"; fee := None |} s
              eq_refl eq_refl eq_refl) as [Hb Hgone].
  split_and!; [reflexivity | etrans; [exact Hb | reflexivity] | exact Hgone].
Defined.


(** A full round with exact amounts: deposit 100, withdraw 30, the
    withdrawal fails. *)
Definition exact_round : list (Event Z) :=
  [EvSelectCoinTopup 1 "USDT";
   EvTopupAmount 1 (Some 100) topup_id accepted;
   EvDepositCallback (callback "deposit" topup_id (AmountValue 100) "success");
   EvSelectCoinWithdraw 1 "USDT";
   EvWithdrawAmount 1 (Some 30);
   EvRecipient 1 (Some 2) recipient_known withdraw_id accepted;
   EvWithdrawCallback (callback "withdraw" withdraw_id AmountAbsent "fail")].


(** Stand-ins for the two library functions, and a payload decoder that
    would credit 100 to the pending deposit. *)
Definition toy_digest (bytes : list N) : list N := reverse bytes.
Definition toy_base64 (bytes : list N) : pystr := bytes.
Definition decode_to_deposit (_ : pystr) : option (Callback float) :=
  Some (callback "deposit" topup_id (AmountValue 100%float) "success").

Definition merchant : pystr := [109; 49]%N.       (* "m1" *)
Definition secret_key : pystr := [107; 101; 121]%N. (* "key" *)
Definition payload : pystr := [101; 121; 74; 57]%N. (* "eyJ9" *)

Lemma unauthenticated_request_rejected_witness :
  let s := store (deposit_ordered 100%float) in
  let forged := {| hdr_id := Some merchant; hdr_sign := Some [120]%N;
                   req_text := Some payload |} in
  let signed := {| hdr_id := Some merchant;
                   hdr_sign := generate_sign toy_digest toy_base64 secret_key payload;
                   req_text := Some payload |} in
  kkpay_webhook_handler toy_digest toy_base64 decode_to_deposit merchant
    secret_key forged s = (s, 401)
  ∧ balance_of 1 (kkpay_webhook_handler toy_digest toy_base64 decode_to_deposit
                    merchant secret_key signed s).1 = 100%float.
Proof.
  intros s forged signed. split; [|reflexivity].
  apply (unauthenticated_request_rejected toy_digest toy_base64 decode_to_deposit
           merchant secret_key forged s).
  right. exists payload. split; reflexivity.
Defined.

(** A lone surrogate cannot be encoded: [generate_sign] raises,
    [verify_signature] answers [false]. *)
Example verify_signature_fails_closed :
  generate_sign toy_digest toy_base64 secret_key [0xD800]%N = None
  ∧ verify_signature toy_digest toy_base64 secret_key [0xD800]%N (Some [120]%N) = false
  ∧ verify_signature toy_digest toy_base64 secret_key payload
      (generate_sign toy_digest toy_base64 secret_key payload) = true.
Proof. split_and!; reflexivity. Qed.

Definition request_30 (oid : string) : WithdrawRequest float :=
  {| wr_amount := 30%float; wr_coin := "USDT"; wr_recipient := 2;
     wr_order := oid; wr_response := accepted |}.

Lemma serial_withdrawals_second_refused_witness :
  let s := store (funded 50%float) in
  let final := race 1 (request_30 withdraw_id) (request_30 withdraw_id')
                 one_after_the_other s in
  first_phase final = Reserved
  ∧ second_phase final = Refused
  ∧ balance_of 1 (shared final) = 20%float.
Proof.
  intros s final.
  assert (H1 : first_phase final = Reserved) by (vm_compute; reflexivity).
  assert (H2 : num_lt (balance_of 1 s ⊖ wr_amount (request_30 withdraw_id))
                 (wr_amount (request_30 withdraw_id')) = true)
    by (vm_compute; reflexivity).
  pose proof (serial_withdrawals_second_refused 1 (request_30 withdraw_id)
                (request_30 withdraw_id') s H1 H2) as [Hp Hb].
  split_and!; [exact H1 | exact Hp |].
  etrans; [exact Hb | vm_compute; reflexivity].
Defined.

(** *** Where the code departs from the specification *)




(** C6. The gateway refuses a deposit of 100 (code 9999): the order
    stays in the pending set, and a later success callback for it credits 100
    although the user has no transaction for the order. The same for a
    refused withdrawal of 30 from a balance of 50: the order stays pending,
    and a later fail callback refunds 30 that were never taken. *)
Theorem rejected_order_stays_pending :
  let w := run [EvSelectCoinTopup 1 "USDT";
                EvTopupAmount 1 (Some 100%float) topup_id rejected] empty_world in
  let w' := step (EvDepositCallback
                    (callback "deposit" topup_id (AmountValue 100%float) "success")) w in
  let v := run [EvSelectCoinWithdraw 1 "USDT"; EvWithdrawAmount 1 (Some 30%float);
                EvRecipient 1 (Some 2) recipient_known withdraw_id rejected]
             (funded 50%float) in
  let v' := step (EvWithdrawCallback
                    (callback "withdraw" withdraw_id AmountAbsent "fail")) v in
  (order_status <$> get_pending_order topup_id (store w) = Some "pending"
   ∧ user_accounts (store w) !! 1 = None
   ∧ balance_of 1 (store w') = 100%float
   ∧ transactions_of 1 (store w') = [])
  ∧ (order_status <$> get_pending_order withdraw_id (store v) = Some "pending"
     ∧ balance_of 1 (store v) = 50%float
     ∧ find_tx withdraw_id (transactions_of 1 (store v)) = None
     ∧ balance_of 1 (store v') = 80%float).
Proof. split; split_and!; vm_compute; reflexivity. Qed.

(** C10. Balance 50 and two withdrawals of 30 whose segments alternate:
    both pass the amount check against the balance 50, both reserve, and the
    balance ends at -10. *)
Lemma interleaved_withdrawals_both_reserve :
  let s := store (funded 50%float) in
  let final := race 1 (request_30 withdraw_id) (request_30 withdraw_id')
                 [false; true; false; true; false; true] s in
  num_lt (balance_of 1 s) (30 + 30)%float = true
  ∧ first_phase final = Reserved
  ∧ second_phase final = Reserved
  ∧ balance_of 1 (shared final) = (-10)%float.
Proof. split_and!; vm_compute; reflexivity. Qed.

(** * Further properties of the code *)

(** ** The two dictionaries ([shared_data.py]) *)

Section StoreExtras.
Context {A : Type} `{Amount A}.
Implicit Types (s : Store A) (uid : Z) (oid : string).

Lemma store_eq s s' :
  user_accounts s = user_accounts s' -> pending_orders s = pending_orders s' ->
  s = s'.
Proof. destruct s, s'. simpl. by intros -> ->. Qed.

(** X1. [get_user_account] creates the account on first access, with
    balance 0 and an empty transaction list, and returns the stored account
    otherwise; no other account and no pending order is touched, a known
    account leaves the store as it is, and asking again returns the same
    account without a further change. *)
Theorem get_user_account_creates_once uid s :
  let account := (get_user_account uid s).1 in
  let s' := (get_user_account uid s).2 in
  account = default new_account (user_accounts s !! uid)
  ∧ user_accounts s' !! uid = Some account
  ∧ (∀ uid', uid' ≠ uid -> user_accounts s' !! uid' = user_accounts s !! uid')
  ∧ pending_orders s' = pending_orders s
  ∧ (is_Some (user_accounts s !! uid) -> s' = s)
  ∧ get_user_account uid s' = (account, s').
Proof.
  intros account s'. subst account s'. split_and!.
  - unfold get_user_account. by destruct (user_accounts s !! uid).
  - apply get_user_account_lookup.
  - intros uid' Hne. by apply get_user_account_other.
  - apply get_user_account_pending.
  - intros [a Ha]. by rewrite (get_user_account_known uid s a Ha).
  - rewrite get_user_account_twice. by destruct (get_user_account uid s).
Qed.

(** X2. [add_pending_order] followed by [get_pending_order] returns the
    order just stored and leaves every other id as it was; storing under an
    id that is taken replaces the earlier order without complaint, so the
    last write wins; and on an id that was free, [remove_pending_order]
    undoes [add_pending_order]. *)
Theorem pending_order_insert_lookup oid oid' order order' s :
  get_pending_order oid (add_pending_order oid order s) = Some order
  ∧ (oid' ≠ oid ->
     get_pending_order oid' (add_pending_order oid order s)
     = get_pending_order oid' s)
  ∧ add_pending_order oid order' (add_pending_order oid order s)
    = add_pending_order oid order' s
  ∧ (get_pending_order oid s = None ->
     remove_pending_order oid (add_pending_order oid order s) = s).
Proof.
  unfold get_pending_order, add_pending_order, remove_pending_order. simpl.
  split_and!.
  - apply lookup_insert_eq.
  - intros Hne. by apply lookup_insert_ne.
  - apply store_eq; simpl; [done | apply insert_insert_eq].
  - intros Hnone. rewrite lookup_insert_eq. apply store_eq; simpl; [done|].
    rewrite delete_insert_eq. by apply delete_id.
Qed.

(** X3. [remove_pending_order] takes exactly the named order out: the id
    is gone afterwards, every other id keeps its order, the accounts are not
    touched, and an id that is not pending is not an error: the store
    stays as it is, so removing twice is the same as removing once. *)
Theorem remove_pending_order_only_that_order oid oid' s :
  get_pending_order oid (remove_pending_order oid s) = None
  ∧ (oid' ≠ oid ->
     get_pending_order oid' (remove_pending_order oid s)
     = get_pending_order oid' s)
  ∧ user_accounts (remove_pending_order oid s) = user_accounts s
  ∧ (get_pending_order oid s = None -> remove_pending_order oid s = s)
  ∧ remove_pending_order oid (remove_pending_order oid s)
    = remove_pending_order oid s.
Proof.
  split_and!.
  - apply get_pending_order_removed.
  - intros Hne. unfold get_pending_order, remove_pending_order.
    destruct (pending_orders s !! oid); simpl; [by apply lookup_delete_ne | done].
  - apply accounts_remove_pending_order.
  - apply remove_pending_order_absent.
  - apply remove_pending_order_absent, get_pending_order_removed.
Qed.

(** The parts of a transaction that no function of the program rewrites. *)
Definition tx_core (tx : Transaction A) : string * A * string :=
  (tx_type tx, tx_amount tx, tx_order_id tx).

Lemma mark_first_absent oid status (txs : list (Transaction A)) :
  find_tx oid txs = None -> mark_first oid status txs = txs.
Proof.
  induction txs as [|tx rest IH]; simpl; [done|].
  destruct (String.eqb (tx_order_id tx) oid); [done|].
  intros Hnone. by rewrite IH.
Qed.

Lemma mark_first_split oid status (txs : list (Transaction A)) tx :
  find_tx oid txs = Some tx ->
  ∃ before after,
    txs = (before ++ tx :: after)%list
    ∧ Forall (fun t => tx_order_id t ≠ oid) before
    ∧ tx_order_id tx = oid
    ∧ mark_first oid status txs = (before ++ set_tx_status status tx :: after)%list.
Proof.
  induction txs as [|t rest IH]; simpl; [done|].
  destruct (String.eqb (tx_order_id t) oid) eqn:E.
  - intros [= ->]. exists [], rest. apply String.eqb_eq in E. by split_and!.
  - intros Hfind. destruct (IH Hfind) as (before & after & -> & Hall & Hid & Hmark).
    exists (t :: before), after. split_and!; [done| |done|by rewrite Hmark].
    constructor; [|done]. intros Heq. apply String.eqb_neq in E. by apply E.
Qed.

Lemma mark_first_core oid status (txs : list (Transaction A)) :
  tx_core <$> mark_first oid status txs = tx_core <$> txs.
Proof.
  induction txs as [|tx rest IH]; simpl; [done|].
  destruct (String.eqb (tx_order_id tx) oid); simpl; [done|].
  f_equal. exact IH.
Qed.

(** X4. [update_transaction_status] rewrites the status of the first
    transaction with the given order id and of no other: the list keeps its
    length and order, every transaction keeps its type, amount and order
    id, later transactions with the same id keep their status, the balance
    is not touched, and when no transaction has the id the list is left as it
    is without an error. *)
Theorem update_transaction_status_first_only uid oid status s :
  let txs := transactions_of uid s in
  let txs' := transactions_of uid (update_transaction_status uid oid status s) in
  balance_of uid (update_transaction_status uid oid status s) = balance_of uid s
  ∧ tx_core <$> txs' = tx_core <$> txs
  ∧ match find_tx oid txs with
    | None => txs' = txs
    | Some tx =>
        ∃ before after,
          txs = (before ++ tx :: after)%list
          ∧ Forall (fun t => tx_order_id t ≠ oid) before
          ∧ txs' = (before ++ set_tx_status status tx :: after)%list
    end.
Proof.
  intros txs txs'. subst txs txs'.
  rewrite update_transaction_status_eq, balance_of_put, transactions_of_put.
  cbn [balance transactions]. split_and!; [done | apply mark_first_core |].
  destruct (find_tx oid (transactions_of uid s)) as [tx|] eqn:Hfind.
  - destruct (mark_first_split oid status _ tx Hfind)
      as (before & after & Heq & Hall & _ & Hmark).
    by exists before, after.
  - by apply mark_first_absent.
Qed.

End StoreExtras.

(** ** More on the settlement callbacks ([webhook_server.py]) *)

Section CallbackExtras.
Context {A : Type} `{Amount A}.
Implicit Types (s : Store A) (cb : Callback A) (uid : Z) (oid : string).

Lemma transactions_of_other uid uid0 s s' :
  touches uid s s' -> uid0 ≠ uid -> transactions_of uid0 s' = transactions_of uid0 s.
Proof.
  intros Ht Hne. unfold transactions_of, get_user_account.
  rewrite (Ht uid0 Hne). by destruct (user_accounts s !! uid0).
Qed.

Lemma balance_of_get_any uid uid0 s :
  balance_of uid0 (get_user_account uid s).2 = balance_of uid0 s.
Proof.
  destruct (decide (uid0 = uid)) as [->|Hne]; [apply balance_of_get|].
  apply (balance_of_other uid); [auto with touch | done].
Qed.

Lemma transactions_of_get_any uid uid0 s :
  transactions_of uid0 (get_user_account uid s).2 = transactions_of uid0 s.
Proof.
  destruct (decide (uid0 = uid)) as [->|Hne]; [apply transactions_of_get|].
  apply (transactions_of_other uid); [auto with touch | done].
Qed.

Lemma balance_of_update_transaction_status_any uid uid0 oid status s :
  balance_of uid0 (update_transaction_status uid oid status s) = balance_of uid0 s.
Proof.
  destruct (decide (uid0 = uid)) as [->|Hne];
    [apply balance_of_update_transaction_status|].
  apply (balance_of_other uid); [auto with touch | done].
Qed.

(** X5. A deposit callback whose status is not success, for a pending
    order, credits nothing and records nothing: every balance and every
    transaction list stays as it was, so the order's transaction keeps
    the status it had, and yet the order is taken out of the pending set. *)
Theorem deposit_callback_other_status_drops_order cb oid order s :
  userOrder cb = Some oid ->
  get_pending_order oid s = Some order ->
  py_float (cb_amount cb) ≠ None ->
  default "success" (orderStatus cb) ≠ "success" ->
  let s' := (handle_deposit_callback cb s).1 in
  (handle_deposit_callback cb s).2 = Returned
  ∧ (∀ uid, balance_of uid s' = balance_of uid s)
  ∧ (∀ uid, transactions_of uid s' = transactions_of uid s)
  ∧ get_pending_order oid s' = None.
Proof.
  intros Hid Hord Hamt Hst s'. subst s'.
  assert (Heq : handle_deposit_callback cb s =
    (remove_pending_order oid (get_user_account (user_id order) s).2, Returned)).
  { unfold handle_deposit_callback.
    destruct (py_float (cb_amount cb)); [|done]. rewrite Hid, Hord.
    apply String.eqb_neq in Hst. rewrite Hst.
    by destruct (get_user_account (user_id order) s). }
  rewrite Heq. cbn [fst snd]. split_and!.
  - done.
  - intros uid. rewrite balance_of_remove_pending_order. apply balance_of_get_any.
  - intros uid.
    rewrite (transactions_of_frame uid _ _ (accounts_remove_pending_order oid _)).
    apply transactions_of_get_any.
  - apply get_pending_order_removed.
Qed.

(** X6. A withdraw callback whose status is not fail, for a pending
    order that names a recipient, moves no balance; it writes the status of
    the payload as it is (whatever text it is, or None when the payload has
    none) into the first transaction of the order and removes the order. *)
Theorem withdraw_callback_writes_payload_status cb oid order recipient s :
  userOrder cb = Some oid ->
  get_pending_order oid s = Some order ->
  recipient_id order = Some recipient ->
  py_float (cb_amount cb) ≠ None ->
  orderStatus cb ≠ Some "fail" ->
  let uid := user_id order in
  let s' := (handle_withdraw_callback cb s).1 in
  (handle_withdraw_callback cb s).2 = Returned
  ∧ (∀ uid0, balance_of uid0 s' = balance_of uid0 s)
  ∧ transactions_of uid s' = mark_first oid (orderStatus cb) (transactions_of uid s)
  ∧ get_pending_order oid s' = None.
Proof.
  intros Hid Hord Hrec Hamt Hst uid s'. subst uid s'.
  assert (Heq : handle_withdraw_callback cb s =
    (remove_pending_order oid
       (update_transaction_status (user_id order) oid (orderStatus cb)
          (get_user_account (user_id order) s).2), Returned)).
  { unfold handle_withdraw_callback.
    destruct (py_float (cb_amount cb)); [|done]. rewrite Hid, Hord.
    destruct (get_user_account (user_id order) s) as [account s1].
    rewrite bool_decide_eq_false_2 by done. by rewrite Hrec. }
  rewrite Heq. cbn [fst snd]. split_and!.
  - done.
  - intros uid0. rewrite balance_of_remove_pending_order.
    rewrite balance_of_update_transaction_status_any. apply balance_of_get_any.
  - rewrite (transactions_of_frame _ _ _ (accounts_remove_pending_order oid _)).
    rewrite update_transaction_status_eq, transactions_of_put. cbn [transactions].
    by rewrite transactions_of_get.
  - apply get_pending_order_removed.
Qed.

(** X7. [handle_withdraw_callback] never looks at the amount of the
    payload: two payloads that name the same order and status, both with an
    amount that converts, leave the same store. On fail it pays back the
    amount stored in the order, whatever kind of order it is. *)
Theorem withdraw_callback_ignores_payload_amount cb cb' oid order s :
  userOrder cb = userOrder cb' ->
  orderStatus cb = orderStatus cb' ->
  py_float (cb_amount cb) ≠ None ->
  py_float (cb_amount cb') ≠ None ->
  handle_withdraw_callback cb s = handle_withdraw_callback cb' s
  ∧ (userOrder cb = Some oid -> get_pending_order oid s = Some order ->
     orderStatus cb = Some "fail" ->
     balance_of (user_id order) (handle_withdraw_callback cb s).1
     = balance_of (user_id order) s ⊕ amount order).
Proof.
  intros Hid Hst Hamt Hamt'. split.
  - unfold handle_withdraw_callback.
    destruct (py_float (cb_amount cb)); [|done].
    destruct (py_float (cb_amount cb')); [|done].
    by rewrite Hid, Hst.
  - intros Hoid Hord Hfail.
    rewrite (handle_withdraw_callback_fail cb oid order s Hoid Hord Hamt Hfail).
    cbn [fst]. rewrite balance_of_remove_pending_order.
    rewrite balance_of_update_user_balance.
    by rewrite balance_of_update_transaction_status, balance_of_get.
Qed.

End CallbackExtras.

(** ** More on the webhook entry point *)

(** The chain of comparisons on [business_type], as one test per name. *)
Lemma business_type_cases {T : Type} (bt : option string) (a b c d : T) :
  match bt with
  | Some "deposit" => a
  | Some "withdraw" => b
  | Some "withdrawalPendingConfirm" => c
  | _ => d
  end =
  if decide (bt = Some "deposit") then a
  else if decide (bt = Some "withdraw") then b
  else if decide (bt = Some "withdrawalPendingConfirm") then c
  else d.
Proof.
  destruct bt as [s|]; [|done].
  repeat match goal with
  | |- context [match ?x with _ => _ end] =>
      is_var x; destruct x;
      try (repeat case_decide; first [done | congruence])
  end.
Qed.

Section WebhookExtras.
Context {A : Type} `{Amount A}.
Variable sha256 : list N -> list N.
Variable b64encode : list N -> pystr.
Variable decode_payload : pystr -> option (Callback A).
Variable KKPAY_MERCHANT_ID : pystr.
Variable KKPAY_SECRET : pystr.
Implicit Types (s : Store A) (cb : Callback A) (request : Request) (body : pystr).

(** The request carries the merchant id and a signature that verifies over
    its body text. *)
Definition authenticated (request : Request) (body : pystr) : Prop :=
  hdr_id request = Some KKPAY_MERCHANT_ID
  ∧ req_text request = Some body
  ∧ verify_signature sha256 b64encode KKPAY_SECRET body (hdr_sign request) = true.

(** What the handler does with a decoded payload. *)
Definition dispatched (cb : Callback A) (s : Store A) : Store A * outcome :=
  if decide (businessType cb = Some "deposit") then handle_deposit_callback cb s
  else if decide (businessType cb = Some "withdraw") then handle_withdraw_callback cb s
  else if decide (businessType cb = Some "withdrawalPendingConfirm")
       then handle_withdraw_confirm_callback cb s
  else (s, Returned).

Definition status_of (o : outcome) : Z :=
  match o with Returned => 200 | Raised => 500 end.

Lemma webhook_authenticated request body s :
  authenticated request body ->
  kkpay_webhook_handler sha256 b64encode decode_payload KKPAY_MERCHANT_ID
    KKPAY_SECRET request s =
  match decode_payload body with
  | None => (s, 400)
  | Some cb => ((dispatched cb s).1, status_of (dispatched cb s).2)
  end.
Proof.
  intros (Hid & Hbody & Hsig). unfold kkpay_webhook_handler.
  rewrite bool_decide_eq_true_2 by done. cbn [negb]. rewrite Hbody, Hsig. cbn [negb].
  destruct (decode_payload body) as [cb|]; [|done].
  rewrite business_type_cases. fold (dispatched cb s).
  by destruct (dispatched cb s) as [s' []].
Qed.

Lemma webhook_not_authenticated request s :
  (∀ body, ¬ authenticated request body) ->
  kkpay_webhook_handler sha256 b64encode decode_payload KKPAY_MERCHANT_ID
    KKPAY_SECRET request s = (s, 401)
  ∨ kkpay_webhook_handler sha256 b64encode decode_payload KKPAY_MERCHANT_ID
      KKPAY_SECRET request s = (s, 500).
Proof.
  intros Hno. unfold kkpay_webhook_handler.
  case_bool_decide as Hid; cbn [negb]; [|by left].
  destruct (req_text request) as [body|] eqn:Hbody; [|by right].
  destruct (verify_signature _ _ _ body _) eqn:Hsig; cbn [negb]; [|by left].
  by destruct (Hno body).
Qed.

(** X8. The answers of [kkpay_webhook_handler]. The status is 200, 400,
    401 or 500. With 400 or 401 the store is as it was. A status 200, and
    any change of the store, needs a request that carries the merchant id
    and a verifying signature, with a body that decodes. *)
Theorem webhook_answers request s :
  let s' := (kkpay_webhook_handler sha256 b64encode decode_payload
               KKPAY_MERCHANT_ID KKPAY_SECRET request s).1 in
  let code := (kkpay_webhook_handler sha256 b64encode decode_payload
                 KKPAY_MERCHANT_ID KKPAY_SECRET request s).2 in
  (code = 200 ∨ code = 400 ∨ code = 401 ∨ code = 500)
  ∧ (code = 400 ∨ code = 401 -> s' = s)
  ∧ (code = 200 ∨ s' ≠ s ->
     ∃ body cb, authenticated request body ∧ decode_payload body = Some cb).
Proof.
  intros s' code. subst s' code.
  destruct (req_text request) as [body|] eqn:Hbody.
  - destruct (decide (authenticated request body)) as [Hauth|Hno].
    + rewrite (webhook_authenticated request body s Hauth).
      destruct (decode_payload body) as [cb|] eqn:Hdec; cbn [fst snd].
      * split_and!.
        -- destruct (dispatched cb s).2; simpl; auto.
        -- destruct (dispatched cb s).2; simpl; by intros [|].
        -- intros _. by exists body, cb.
      * split_and!; [auto | done | by intros [|]].
    + destruct (webhook_not_authenticated request s) as [-> | ->]; cbn [fst snd].
      * intros body' (Hid & Hb & Hsig). rewrite Hbody in Hb.
        injection Hb as <-. by apply Hno.
      * split_and!; [auto | done | by intros [|]].
      * split_and!; [auto | done | by intros [|]].
  - destruct (webhook_not_authenticated request s) as [-> | ->]; cbn [fst snd].
    + intros body' (_ & Hb & _). by rewrite Hbody in Hb.
    + split_and!; [auto | done | by intros [|]].
    + split_and!; [auto | done | by intros [|]].
Qed.

(** X9. An authenticated deposit or withdraw callback for an order id
    that is not pending (never created, or settled before) is answered with
    200 and changes nothing. *)
Theorem webhook_unknown_order_acknowledged request body cb s :
  authenticated request body ->
  decode_payload body = Some cb ->
  businessType cb = Some "deposit" ∨ businessType cb = Some "withdraw" ->
  py_float (cb_amount cb) ≠ None ->
  (∀ oid, userOrder cb = Some oid -> get_pending_order oid s = None) ->
  kkpay_webhook_handler sha256 b64encode decode_payload KKPAY_MERCHANT_ID
    KKPAY_SECRET request s = (s, 200).
Proof.
  intros Hauth Hdec Hbt Hamt Hunknown.
  rewrite (webhook_authenticated request body s Hauth), Hdec.
  assert (Hd : handle_deposit_callback cb s = (s, Returned)).
  { unfold handle_deposit_callback. destruct (py_float (cb_amount cb)); [|done].
    destruct (userOrder cb) as [oid|]; [|done]. by rewrite (Hunknown oid). }
  assert (Hw : handle_withdraw_callback cb s = (s, Returned)).
  { unfold handle_withdraw_callback. destruct (py_float (cb_amount cb)); [|done].
    destruct (userOrder cb) as [oid|]; [|done]. by rewrite (Hunknown oid). }
  unfold dispatched. destruct Hbt as [Hbt|Hbt]; rewrite Hbt.
  - rewrite decide_True by done. by rewrite Hd.
  - rewrite decide_False by done. rewrite decide_True by done. by rewrite Hw.
Qed.

(** X10. An authenticated callback of any other category than deposit
    and withdraw never changes the store. It is answered with 200, except
    that a withdrawalPendingConfirm payload whose amount does not convert
    gets 500. *)
Theorem webhook_other_categories_have_no_effect request body cb s :
  authenticated request body ->
  decode_payload body = Some cb ->
  businessType cb ≠ Some "deposit" ->
  businessType cb ≠ Some "withdraw" ->
  let answer := kkpay_webhook_handler sha256 b64encode decode_payload
                  KKPAY_MERCHANT_ID KKPAY_SECRET request s in
  answer.1 = s
  ∧ (businessType cb ≠ Some "withdrawalPendingConfirm"
     ∨ py_float (cb_amount cb) ≠ None -> answer.2 = 200)
  ∧ (businessType cb = Some "withdrawalPendingConfirm" ->
     py_float (cb_amount cb) = None -> answer.2 = 500).
Proof.
  intros Hauth Hdec Hd Hw answer. subst answer.
  rewrite (webhook_authenticated request body s Hauth), Hdec. cbn [fst snd].
  unfold dispatched. rewrite !decide_False by done.
  unfold handle_withdraw_confirm_callback.
  case_decide as Hc.
  - destruct (py_float (cb_amount cb)); cbn [fst snd status_of];
      split_and!; try done. by intros [|].
  - cbn [fst snd status_of]. by split_and!.
Qed.

(** X11. An authenticated deposit, withdraw or withdrawalPendingConfirm
    callback whose amount does not convert to a number is answered with
    500 before anything is written: the order it names stays pending. *)
Theorem webhook_invalid_amount_changes_nothing request body cb s :
  authenticated request body ->
  decode_payload body = Some cb ->
  py_float (cb_amount cb) = None ->
  businessType cb = Some "deposit" ∨ businessType cb = Some "withdraw"
  ∨ businessType cb = Some "withdrawalPendingConfirm" ->
  kkpay_webhook_handler sha256 b64encode decode_payload KKPAY_MERCHANT_ID
    KKPAY_SECRET request s = (s, 500).
Proof.
  intros Hauth Hdec Hamt Hbt.
  rewrite (webhook_authenticated request body s Hauth), Hdec.
  unfold dispatched, handle_deposit_callback, handle_withdraw_callback,
    handle_withdraw_confirm_callback. rewrite Hamt.
  by repeat case_decide; destruct Hbt as [?|[?|?]]; try done; congruence.
Qed.

(** X12. A withdraw callback with a status other than fail that names a
    pending order without recipient (a deposit order) is answered with
    500: the status of the payload is already written into the order's
    transaction, no balance has moved, and the order is still pending. *)
Theorem webhook_withdraw_callback_needs_recipient request body cb oid order s :
  authenticated request body ->
  decode_payload body = Some cb ->
  businessType cb = Some "withdraw" ->
  userOrder cb = Some oid ->
  get_pending_order oid s = Some order ->
  recipient_id order = None ->
  py_float (cb_amount cb) ≠ None ->
  orderStatus cb ≠ Some "fail" ->
  let answer := kkpay_webhook_handler sha256 b64encode decode_payload
                  KKPAY_MERCHANT_ID KKPAY_SECRET request s in
  answer.2 = 500
  ∧ get_pending_order oid answer.1 = Some order
  ∧ (∀ uid, balance_of uid answer.1 = balance_of uid s)
  ∧ transactions_of (user_id order) answer.1
    = mark_first oid (orderStatus cb) (transactions_of (user_id order) s).
Proof.
  intros Hauth Hdec Hbt Hid Hord Hrec Hamt Hst answer. subst answer.
  rewrite (webhook_authenticated request body s Hauth), Hdec.
  unfold dispatched. rewrite Hbt, decide_False, decide_True by done.
  assert (Heq : handle_withdraw_callback cb s =
    (update_transaction_status (user_id order) oid (orderStatus cb)
       (get_user_account (user_id order) s).2, Raised)).
  { unfold handle_withdraw_callback.
    destruct (py_float (cb_amount cb)); [|done]. rewrite Hid, Hord.
    destruct (get_user_account (user_id order) s) as [account s1].
    rewrite bool_decide_eq_false_2 by done. by rewrite Hrec. }
  rewrite Heq. cbn [fst snd status_of]. split_and!.
  - done.
  - unfold get_pending_order in *.
    by rewrite pending_update_transaction_status, get_user_account_pending.
  - intros uid. rewrite balance_of_update_transaction_status_any.
    apply balance_of_get_any.
  - rewrite update_transaction_status_eq, transactions_of_put. cbn [transactions].
    by rewrite transactions_of_get.
Qed.


End WebhookExtras.

(** ** Outbound requests ([KKPayAPI.make_request]) *)

(** A text of code points below 128. *)
Definition ascii_text (t : pystr) : Prop := Forall (fun c => (c < 0x80)%N) t.

(** The answer [make_request] gives when anything went wrong. *)
Definition error_response : Response :=
  {| resp_code := Some 9999; resp_txid := None; resp_fee := None |}.

Section Gateway.
Variable sha256 : list N -> list N.
Variable b64encode : list N -> pystr.
(** [json.loads] on the text of the answer; [None] is JSONDecodeError. *)
Variable json_loads : pystr -> option Response.

(** [make_request] up to [session.post]: the headers and the body it is
    about to send, [None] when an exception ends the attempt before.
    [json_data] is [json.dumps(data)], [None] when that raises. *)
Definition make_request_message (merchant_id secret : pystr)
    (json_data : option pystr) : option Request :=
  match json_data with
  | None => None
  | Some text =>
      match utf8_encode text with
      | None => None
      | Some bytes =>
          let base64_data := b64encode bytes in
          match generate_sign sha256 b64encode secret base64_data with
          | None => None
          | Some sign =>
              Some {| hdr_id := Some merchant_id; hdr_sign := Some sign;
                      req_text := Some base64_data |}
          end
      end
  end.

(** [make_request]; [post] is the remote side: the text it answers, [None]
    when the connection raises. *)
Definition make_request (merchant_id secret : pystr)
    (post : Request -> option pystr) (json_data : option pystr) : Response :=
  match make_request_message merchant_id secret json_data with
  | None => error_response
  | Some message =>
      match post message with
      | None => error_response
      | Some response_text =>
          match json_loads response_text with
          | Some response_data => response_data
          | None => error_response
          end
      end
  end.

Lemma utf8_encode_ascii t : ascii_text t -> utf8_encode t = Some t.
Proof.
  induction 1 as [|c rest Hc _ IH]; simpl; [done|].
  rewrite IH. unfold utf8_char.
  by rewrite (proj2 (N.ltb_lt c 0x80) Hc).
Qed.

(** X14. For a payload and a secret of ASCII text, as every base64 body
    is, signing cannot fail: [generate_sign] returns the base64 text of the
    digest of the payload followed by the secret, byte for byte, and
    [verify_signature] accepts this value and no other. *)
Theorem sign_and_verify_ascii secret p :
  ascii_text p -> ascii_text secret ->
  generate_sign sha256 b64encode secret p
  = Some (b64encode (sha256 (p ++ secret)%list))
  ∧ ∀ s, verify_signature sha256 b64encode secret p s
         = bool_decide (s = Some (b64encode (sha256 (p ++ secret)%list))).
Proof.
  intros Hp Hs.
  assert (Henc : utf8_encode (p ++ secret)%list = Some (p ++ secret)%list).
  { apply utf8_encode_ascii. by apply Forall_app. }
  unfold generate_sign, verify_signature. rewrite Henc. split; [done|].
  intros s. apply bool_decide_ext. split; by intros ->.
Qed.

(** X15. [make_request] reports nothing the gateway did not say: its
    result is the error answer with code 9999, or it is what [json.loads]
    made of the text the remote side answered to the signed message. So a
    result with code 1000 always comes from the gateway. *)
Theorem make_request_fails_closed merchant_id secret post json_data :
  let result := make_request merchant_id secret post json_data in
  (result = error_response
   ∨ ∃ message response_text,
       make_request_message merchant_id secret json_data = Some message
       ∧ post message = Some response_text
       ∧ json_loads response_text = Some result)
  ∧ (make_request_message merchant_id secret json_data = None ->
     result = error_response).
Proof.
  intros result. subst result. unfold make_request.
  destruct (make_request_message merchant_id secret json_data) as [message|];
    [|by split; [left|]].
  split; [|done].
  destruct (post message) as [response_text|] eqn:Hpost; [|by left].
  destruct (json_loads response_text) as [response_data|] eqn:Hjson; [|by left].
  right. by exists message, response_text.
Qed.

(** X16. What [make_request] sends authenticates under the check of the
    webhook: the message carries the merchant id, its body is the base64
    text of the payload, and its signature verifies over the body with the
    same secret, so [kkpay_webhook_handler] configured with that merchant
    id and secret never answers it with 401. *)
Theorem make_request_message_authenticates {A : Type} `{Amount A}
    merchant_id secret json_data message
    (decode_payload : pystr -> option (Callback A)) (s : Store A) :
  make_request_message merchant_id secret json_data = Some message ->
  (∃ text bytes, json_data = Some text ∧ utf8_encode text = Some bytes
                 ∧ authenticated sha256 b64encode merchant_id secret message
                     (b64encode bytes))
  ∧ (kkpay_webhook_handler sha256 b64encode decode_payload merchant_id secret
       message s).2 ≠ 401.
Proof.
  unfold make_request_message. intros Hmsg.
  destruct json_data as [text|]; [|done].
  destruct (utf8_encode text) as [bytes|] eqn:Henc; [|done].
  destruct (generate_sign sha256 b64encode secret (b64encode bytes))
    as [sign|] eqn:Hsign; [|done].
  injection Hmsg as <-.
  assert (Hauth : authenticated sha256 b64encode merchant_id secret
            {| hdr_id := Some merchant_id; hdr_sign := Some sign;
               req_text := Some (b64encode bytes) |} (b64encode bytes)).
  { split_and!; [done..|]. simpl.
    apply (verify_signature_true sha256 b64encode).
    unfold generate_sign in Hsign.
    destruct (utf8_encode (b64encode bytes ++ secret)%list) as [bs|]; [|done].
    injection Hsign as <-. by exists bs. }
  split; [by exists text, bytes|].
  rewrite (webhook_authenticated sha256 b64encode decode_payload merchant_id
             secret _ (b64encode bytes) s Hauth).
  destruct (decode_payload (b64encode bytes)) as [cb|]; cbn [snd]; [|done].
  by destruct (dispatched cb s).2.
Qed.

End Gateway.

(** ** More on order creation ([main.py]) *)

Section CreationExtras.
Context {A : Type} `{Amount A}.
Implicit Types (s : Store A) (w : World A) (uid : Z) (oid : string).

(** The user whose message an event is, for the three message handlers. *)
Definition message_of (ev : Event A) : option Z :=
  match ev with
  | EvTopupAmount uid _ _ _ => Some uid
  | EvWithdrawAmount uid _ => Some uid
  | EvRecipient uid _ _ _ _ => Some uid
  | _ => None
  end.

Lemma balance_of_touch_same uid s s' :
  touches uid s s' -> balance_of uid s' = balance_of uid s ->
  ∀ uid0, balance_of uid0 s' = balance_of uid0 s.
Proof.
  intros Ht Hb uid0. destruct (decide (uid0 = uid)) as [->|Hne]; [done|].
  by apply (balance_of_other uid).
Qed.

Lemma in_state_false_cleared uid st w :
  fsm w !! uid = None -> in_state uid st w = false.
Proof.
  intros Hnone. unfold in_state, context_of. by rewrite Hnone.
Qed.

(** X17. Input that a message handler rejects has no effect at all: a
    text that is not a number, an amount below 1, a recipient id that is not
    an integer or that the gateway does not know leave the store and the
    conversation as they were, whatever the gateway would have answered to
    an order. *)
Theorem rejected_input_changes_nothing uid oid response chk w :
  step (EvTopupAmount uid None oid response) w = w
  ∧ step (EvWithdrawAmount uid None) w = w
  ∧ step (EvRecipient uid None chk oid response) w = w
  ∧ (∀ amt, num_lt amt num_one = true ->
       step (EvTopupAmount uid (Some amt) oid response) w = w
       ∧ step (EvWithdrawAmount uid (Some amt)) w = w)
  ∧ (∀ recipient, recipient_exists chk = false ->
       step (EvRecipient uid (Some recipient) chk oid response) w = w).
Proof.
  split_and!; simpl.
  - by destruct (in_state _ _ _).
  - by destruct (in_state _ _ _).
  - by destruct (in_state _ _ _).
  - intros amt Hlt. split; destruct (in_state _ _ _); try done.
    + unfold process_topup_amount. by rewrite Hlt.
    + unfold process_withdraw_amount, withdraw_amount_check. rewrite Hlt.
      by destruct w.
  - intros recipient Hex. destruct (in_state _ _ _); [|done].
    unfold process_recipient_id. by rewrite Hex.
Qed.

Lemma topup_accepted_store uid amt c oid response w :
  in_state uid waiting_for_topup_amount w = true ->
  num_lt amt num_one = false ->
  data_coin (context_of uid w) = Some c ->
  resp_code response = Some 1000 ->
  let w' := step (EvTopupAmount uid (Some amt) oid response) w in
  get_pending_order oid (store w')
  = Some {| user_id := uid; recipient_id := None; amount := amt; coin := c;
            order_type := "topup"; order_status := "pending";
            txid := Some (default "" (resp_txid response)); fee := None |}
  ∧ transactions_of uid (store w')
    = (transactions_of uid (store w)
       ++ [{| tx_type := "topup"; tx_amount := amt; tx_status := Some "pending";
              tx_order_id := oid |}])%list
  ∧ (∀ uid0, balance_of uid0 (store w') = balance_of uid0 (store w))
  ∧ fsm w' !! uid = None.
Proof.
  intros Hin Hge Hcoin Hcode w'. subst w'. simpl. rewrite Hin.
  unfold process_topup_amount. rewrite Hge, Hcoin.
  unfold state_clear, with_store. cbn [store fsm].
  unfold process_topup_amount_reply, process_topup_amount_request.
  rewrite bool_decide_eq_true_2 by done.
  split_and!.
  - unfold get_pending_order. rewrite pending_add_transaction.
    unfold set_order_txid, get_pending_order, add_pending_order. cbn.
    rewrite lookup_insert_eq. cbn. by rewrite lookup_insert_eq.
  - rewrite add_transaction_eq, transactions_of_put. cbn [transactions].
    f_equal. apply transactions_of_frame. by rewrite accounts_set_order_txid.
  - apply (balance_of_touch_same uid); [auto with touch|].
    by autorewrite with bal.
  - apply lookup_delete_eq.
Qed.

(** X18. A deposit order that the gateway accepts: the order is
    registered as pending under the generated id, with the user, the amount,
    the coin and the gateway's txid; a pending transaction with the amount is
    appended to the user's list; no balance changes (a deposit is credited
    by its callback only); and the conversation is cleared. *)
Theorem process_topup_amount_accepted uid amt c oid response w :
  in_state uid waiting_for_topup_amount w = true ->
  num_lt amt num_one = false ->
  data_coin (context_of uid w) = Some c ->
  resp_code response = Some 1000 ->
  let w' := step (EvTopupAmount uid (Some amt) oid response) w in
  get_pending_order oid (store w')
  = Some {| user_id := uid; recipient_id := None; amount := amt; coin := c;
            order_type := "topup"; order_status := "pending";
            txid := Some (default "" (resp_txid response)); fee := None |}
  ∧ transactions_of uid (store w')
    = (transactions_of uid (store w)
       ++ [{| tx_type := "topup"; tx_amount := amt; tx_status := Some "pending";
              tx_order_id := oid |}])%list
  ∧ (∀ uid0, balance_of uid0 (store w') = balance_of uid0 (store w))
  ∧ fsm w' !! uid = None.
Proof. apply topup_accepted_store. Qed.

(** X19. [process_withdraw_amount] only decides: it changes no balance,
    no transaction and no pending order. The amount is taken, and the
    conversation moves on to the recipient with the amount stored, exactly
    when the amount is not below 1 and not above the balance (an amount equal
    to the balance passes); otherwise the conversation stays as it was. *)
Theorem process_withdraw_amount_decides uid amt c w :
  data_coin (context_of uid w) = Some c ->
  let w' := process_withdraw_amount uid (Some amt) w in
  (∀ uid0, balance_of uid0 (store w') = balance_of uid0 (store w))
  ∧ (∀ uid0, transactions_of uid0 (store w') = transactions_of uid0 (store w))
  ∧ pending_orders (store w') = pending_orders (store w)
  ∧ if negb (num_lt amt num_one)
       && negb (num_lt (balance_of uid (store w)) amt)
    then fsm_state (context_of uid w') = Some waiting_for_recipient_tg_id
         ∧ data_amount (context_of uid w') = Some amt
         ∧ data_coin (context_of uid w') = Some c
    else fsm w' = fsm w.
Proof.
  intros Hcoin w'. subst w'. unfold process_withdraw_amount.
  assert (Hchk : withdraw_amount_check uid amt (store w) =
    (negb (num_lt amt num_one) && negb (num_lt (balance_of uid (store w)) amt),
     if num_lt amt num_one then store w
     else (get_user_account uid (store w)).2)).
  { unfold withdraw_amount_check, balance_of.
    destruct (num_lt amt num_one); [done|].
    destruct (get_user_account uid (store w)) as [account s1]. cbn [fst snd].
    by destruct (num_lt (balance account) amt). }
  rewrite Hchk, Hcoin.
  set (s1 := if num_lt amt num_one then store w
             else (get_user_account uid (store w)).2).
  assert (Hb : ∀ uid0, balance_of uid0 s1 = balance_of uid0 (store w)).
  { intros uid0. subst s1. destruct (num_lt amt num_one); [done|].
    apply balance_of_get_any. }
  assert (Ht : ∀ uid0, transactions_of uid0 s1 = transactions_of uid0 (store w)).
  { intros uid0. subst s1. destruct (num_lt amt num_one); [done|].
    apply transactions_of_get_any. }
  assert (Hp : pending_orders s1 = pending_orders (store w)).
  { subst s1. destruct (num_lt amt num_one); [done|].
    apply get_user_account_pending. }
  destruct (negb (num_lt amt num_one) && negb _); cbn [store fsm with_store].
  - split_and!; try done; unfold context_of; cbn [fsm];
      by rewrite lookup_insert_eq.
  - by split_and!.
Qed.

(** X20. Once [process_topup_amount] or [process_recipient_id] has gone
    through to its end (order accepted or refused by the gateway), the
    conversation is cleared: the same message sent again, or any other
    amount or recipient message of that user, starts nothing and changes
    nothing until the user picks a coin again. *)
Theorem finished_conversation_ignores_messages uid amt c oid response w ev :
  num_lt amt num_one = false ->
  data_coin (context_of uid w) = Some c ->
  message_of ev = Some uid ->
  (∀ recipient chk, recipient_exists chk = true ->
     data_amount (context_of uid w) = Some amt ->
     let w' := process_recipient_id uid (Some recipient) chk oid response w in
     step ev w' = w')
  ∧ let w' := process_topup_amount uid (Some amt) oid response w in
    step ev w' = w'.
Proof.
  intros Hge Hcoin Hev.
  assert (Hignored : ∀ w0, fsm w0 !! uid = None -> step ev w0 = w0).
  { intros w0 Hnone. destruct ev; try done; injection Hev as ->; simpl;
      by rewrite in_state_false_cleared. }
  split.
  - intros recipient chk Hex Hamt w'. subst w'. apply Hignored.
    unfold process_recipient_id. rewrite Hex, Hamt, Hcoin. cbn.
    apply lookup_delete_eq.
  - intros w'. subst w'. apply Hignored.
    unfold process_topup_amount. rewrite Hge, Hcoin. cbn.
    apply lookup_delete_eq.
Qed.

End CreationExtras.

(** ** What one event can do *)

Create Rewrite HintDb txs.

Section EventExtras.
Context {A : Type} `{Amount A}.
Implicit Types (s : Store A) (w : World A) (uid : Z) (oid : string) (ev : Event A).

(** The order id an event names: the id under which a creation handler
    registers its order, or the [userOrder] of a callback. *)
Definition event_order (ev : Event A) : option string :=
  match ev with
  | EvTopupAmount _ _ oid _ => Some oid
  | EvRecipient _ _ _ oid _ => Some oid
  | EvDepositCallback cb => userOrder cb
  | EvWithdrawCallback cb => userOrder cb
  | _ => None
  end.

(** The id of the order an event may create. *)
Definition created_order (ev : Event A) : option string :=
  match ev with
  | EvTopupAmount _ _ oid _ => Some oid
  | EvRecipient _ _ _ oid _ => Some oid
  | _ => None
  end.

(** From [old] to [new] every transaction kept its place, type, amount and
    order id, and at most one was appended, under the id [new_id]. *)
Definition log_step (new_id : option string)
    (old new : list (Transaction A)) : Prop :=
  tx_core <$> new = tx_core <$> old
  ∨ ∃ tx, new_id = Some (tx_order_id tx)
          ∧ tx_core <$> new = ((tx_core <$> old) ++ [tx_core tx])%list.

Lemma transactions_of_update_user_balance uid amt s :
  transactions_of uid (update_user_balance uid amt s) = transactions_of uid s.
Proof. by rewrite update_user_balance_eq, transactions_of_put. Qed.

Lemma transactions_of_update_transaction_status uid oid status s :
  transactions_of uid (update_transaction_status uid oid status s)
  = mark_first oid status (transactions_of uid s).
Proof. by rewrite update_transaction_status_eq, transactions_of_put. Qed.

Lemma transactions_of_add_transaction uid ty amt status oid s :
  transactions_of uid (add_transaction uid ty amt status oid s)
  = (transactions_of uid s
     ++ [{| tx_type := ty; tx_amount := amt; tx_status := Some status;
            tx_order_id := oid |}])%list.
Proof. by rewrite add_transaction_eq, transactions_of_put. Qed.

Lemma transactions_of_remove_pending_order uid oid s :
  transactions_of uid (remove_pending_order oid s) = transactions_of uid s.
Proof. apply transactions_of_frame, accounts_remove_pending_order. Qed.

Lemma transactions_of_add_pending_order uid oid order s :
  transactions_of uid (add_pending_order oid order s) = transactions_of uid s.
Proof. by apply transactions_of_frame. Qed.

Lemma transactions_of_set_order_txid uid oid t f s :
  transactions_of uid (set_order_txid oid t f s) = transactions_of uid s.
Proof. apply transactions_of_frame, accounts_set_order_txid. Qed.

Lemma touches_trans uid s s1 s2 :
  touches uid s s1 -> touches uid s1 s2 -> touches uid s s2.
Proof. intros H1 H2 uid0 Hne. rewrite (H2 uid0 Hne). by apply H1. Qed.

Lemma get_pending_order_frame oid s s' :
  pending_orders s' = pending_orders s ->
  get_pending_order oid s' = get_pending_order oid s.
Proof. unfold get_pending_order. by intros ->. Qed.

Lemma get_pending_order_add_ne oid oid' order s :
  oid ≠ oid' ->
  get_pending_order oid (add_pending_order oid' order s) = get_pending_order oid s.
Proof. intros Hne. unfold get_pending_order. simpl. by apply lookup_insert_ne. Qed.

Lemma get_pending_order_remove_ne oid oid' s :
  oid ≠ oid' ->
  get_pending_order oid (remove_pending_order oid' s) = get_pending_order oid s.
Proof.
  intros Hne. unfold get_pending_order, remove_pending_order.
  destruct (pending_orders s !! oid'); simpl; [by apply lookup_delete_ne | done].
Qed.

Lemma get_pending_order_set_txid_ne oid oid' t f s :
  oid ≠ oid' ->
  get_pending_order oid (set_order_txid oid' t f s) = get_pending_order oid s.
Proof.
  intros Hne. unfold set_order_txid.
  destruct (get_pending_order oid' s); [by apply get_pending_order_add_ne | done].
Qed.

End EventExtras.

#[export] Hint Rewrite @transactions_of_update_user_balance
  @transactions_of_update_transaction_status @transactions_of_add_transaction
  @transactions_of_remove_pending_order @transactions_of_add_pending_order
  @transactions_of_set_order_txid @transactions_of_get @transactions_of_put : txs.

Section EventFacts.
Context {A : Type} `{Amount A}.
Implicit Types (s : Store A) (w : World A) (uid : Z) (oid : string) (ev : Event A).

Lemma log_step_same new_id (old new : list (Transaction A)) :
  tx_core <$> new = tx_core <$> old -> log_step new_id old new.
Proof. by left. Qed.

Lemma withdraw_amount_check_store uid amt s :
  (withdraw_amount_check uid amt s).2 = s
  ∨ (withdraw_amount_check uid amt s).2 = (get_user_account uid s).2.
Proof.
  unfold withdraw_amount_check. destruct (num_lt amt num_one); [by left|].
  destruct (get_user_account uid s) as [account s1]. cbn [snd].
  right. by destruct (num_lt (balance account) amt).
Qed.

(** The effect of one event: one account, at most one new transaction, one
    conversation. *)
Lemma step_effect ev w :
  ∃ uid,
    touches uid (store w) (store (step ev w))
    ∧ log_step (created_order ev) (transactions_of uid (store w))
        (transactions_of uid (store (step ev w)))
    ∧ ∀ uid', uid' ≠ uid -> fsm (step ev w) !! uid' = fsm w !! uid'.
Proof.
  destruct ev as [uid|uid c|uid c|uid text oid response|uid text
                 |uid text chk oid response|cb|cb]; simpl.
  - exists uid. unfold start_command, with_store. cbn [store fsm].
    split_and!; [auto with touch | left; by autorewrite with txs | done].
  - exists uid. unfold select_coin_for_topup. cbn [store fsm].
    split_and!; [auto with touch | by left |].
    intros uid' Hne. by rewrite lookup_insert_ne.
  - exists uid. unfold select_coin_for_withdraw, select_coin_for_topup.
    case_bool_decide; cbn [store fsm];
      (split_and!; [auto with touch | left; by autorewrite with txs |]);
      intros uid' Hne; by rewrite lookup_insert_ne.
  - exists uid. destruct (in_state _ _ _);
      [|by split_and!; [auto with touch | left |]].
    unfold process_topup_amount.
    destruct text as [amt|]; [|by split_and!; [auto with touch | left |]].
    destruct (num_lt amt num_one); [by split_and!; [auto with touch | left |]|].
    destruct (data_coin _) as [c|]; [|by split_and!; [auto with touch | left |]].
    unfold state_clear, with_store, process_topup_amount_reply,
      process_topup_amount_request. cbn [store fsm].
    split_and!.
    + case_bool_decide; auto with touch.
    + case_bool_decide.
      * right. eexists {| tx_order_id := oid |}. split; [done|].
        autorewrite with txs. by rewrite fmap_app.
      * left. by autorewrite with txs.
    + intros uid' Hne. by rewrite lookup_delete_ne.
  - exists uid. destruct (in_state _ _ _);
      [|by split_and!; [auto with touch | left |]].
    unfold process_withdraw_amount.
    destruct text as [amt|]; [|by split_and!; [auto with touch | left |]].
    pose proof (withdraw_amount_check_store uid amt (store w)) as Hs1.
    destruct (withdraw_amount_check uid amt (store w)) as [ok s1].
    cbn [snd] in Hs1.
    assert (Ht : touches uid (store w) s1)
      by (destruct Hs1 as [-> | ->]; auto with touch).
    assert (Hl : transactions_of uid s1 = transactions_of uid (store w))
      by (destruct Hs1 as [-> | ->]; [done | apply transactions_of_get]).
    destruct ok; [destruct (data_coin _)|]; cbn [store fsm with_store];
      (split_and!; [done | left; by rewrite Hl |]); try done.
    intros uid' Hne. by rewrite lookup_insert_ne.
  - exists uid. destruct (in_state _ _ _);
      [|by split_and!; [auto with touch | left |]].
    unfold process_recipient_id.
    destruct text as [recipient|]; [|by split_and!; [auto with touch | left |]].
    destruct (negb _); [by split_and!; [auto with touch | left |]|].
    destruct (data_amount _) as [amt|]; [|by split_and!; [auto with touch | left |]].
    destruct (data_coin _) as [c|]; [|by split_and!; [auto with touch | left |]].
    unfold state_clear, with_store. cbn [store fsm].
    destruct (decide (resp_code response = Some 1000)) as [Hcode|Hcode].
    + rewrite recipient_reply_accepted by done. split_and!.
      * unfold process_recipient_id_request. auto with touch.
      * right. exists (debit_transaction amt oid). split; [done|].
        rewrite transactions_of_put. cbn [transactions].
        unfold process_recipient_id_request.
        by rewrite fmap_app, transactions_of_add_pending_order.
      * intros uid' Hne. by rewrite lookup_delete_ne.
    + rewrite recipient_reply_rejected by done. split_and!.
      * unfold process_recipient_id_request. auto with touch.
      * left. unfold process_recipient_id_request. by autorewrite with txs.
      * intros uid' Hne. by rewrite lookup_delete_ne.
  - unfold with_store. cbn [store fsm]. unfold handle_deposit_callback.
    destruct (py_float _) as [amt|];
      [|by exists 0; split_and!; [auto with touch | left |]].
    destruct (userOrder cb) as [oid|];
      [|by exists 0; split_and!; [auto with touch | left |]].
    destruct (get_pending_order oid (store w)) as [order|];
      [|by exists 0; split_and!; [auto with touch | left |]].
    exists (user_id order).
    assert (Hs1 : ∀ s1, (get_user_account (user_id order) (store w)).2 = s1 ->
              touches (user_id order) (store w) s1
              ∧ transactions_of (user_id order) s1
                = transactions_of (user_id order) (store w)).
    { intros s1 <-. split; [auto with touch | apply transactions_of_get]. }
    destruct (get_user_account (user_id order) (store w)) as [account s1].
    destruct (Hs1 s1 eq_refl) as [Ht Hl].
    destruct (String.eqb _ _); cbn [fst]; split_and!; try done.
    + auto with touch.
    + left. autorewrite with txs. by rewrite mark_first_core, Hl.
    + auto with touch.
    + left. autorewrite with txs. by rewrite Hl.
  - unfold with_store. cbn [store fsm]. unfold handle_withdraw_callback.
    destruct (py_float _) as [amt|];
      [|by exists 0; split_and!; [auto with touch | left |]].
    destruct (userOrder cb) as [oid|];
      [|by exists 0; split_and!; [auto with touch | left |]].
    destruct (get_pending_order oid (store w)) as [order|];
      [|by exists 0; split_and!; [auto with touch | left |]].
    exists (user_id order).
    assert (Hs1 : ∀ s1, (get_user_account (user_id order) (store w)).2 = s1 ->
              touches (user_id order) (store w) s1
              ∧ transactions_of (user_id order) s1
                = transactions_of (user_id order) (store w)).
    { intros s1 <-. split; [auto with touch | apply transactions_of_get]. }
    destruct (get_user_account (user_id order) (store w)) as [account s1].
    destruct (Hs1 s1 eq_refl) as [Ht Hl].
    case_bool_decide; [|destruct (recipient_id order)]; cbn [fst];
      (split_and!; [auto with touch | left; autorewrite with txs;
                     by rewrite mark_first_core, Hl | done]).
Qed.

End EventFacts.

Section EventTheorems.
Context {A : Type} `{Amount A}.
Implicit Types (s : Store A) (w : World A) (uid : Z) (oid : string) (ev : Event A).

(** X21. An event reads and writes at most one order, the one it names:
    every other order id is pending after the event exactly as it was
    before it. So an order leaves the pending set only through a callback
    that names it; no handler ever expires or sweeps orders. *)
Theorem event_touches_one_order ev w oid :
  event_order ev ≠ Some oid ->
  get_pending_order oid (store (step ev w)) = get_pending_order oid (store w).
Proof.
  intros Hne.
  destruct ev as [uid|uid c|uid c|uid text oid' response|uid text
                 |uid text chk oid' response|cb|cb]; simpl in *.
  - unfold start_command. cbn [store with_store].
    apply get_pending_order_frame, get_user_account_pending.
  - done.
  - unfold select_coin_for_withdraw, select_coin_for_topup.
    case_bool_decide; cbn [store]; [done|].
    apply get_pending_order_frame, get_user_account_pending.
  - assert (oid ≠ oid') by congruence.
    destruct (in_state _ _ _); [|done]. unfold process_topup_amount.
    destruct text as [amt|]; [|done]. destruct (num_lt amt num_one); [done|].
    destruct (data_coin _) as [c|]; [|done].
    unfold state_clear, with_store, process_topup_amount_reply,
      process_topup_amount_request. cbn [store].
    case_bool_decide.
    + rewrite (get_pending_order_frame oid _ _ (pending_add_transaction _ _ _ _ _ _)).
      rewrite get_pending_order_set_txid_ne by done.
      by apply get_pending_order_add_ne.
    + by apply get_pending_order_add_ne.
  - destruct (in_state _ _ _); [|done]. unfold process_withdraw_amount.
    destruct text as [amt|]; [|done].
    pose proof (withdraw_amount_check_store uid amt (store w)) as Hs1.
    destruct (withdraw_amount_check uid amt (store w)) as [ok s1].
    cbn [snd] in Hs1.
    assert (Hp : get_pending_order oid s1 = get_pending_order oid (store w)).
    { destruct Hs1 as [-> | ->]; [done|].
      apply get_pending_order_frame, get_user_account_pending. }
    by destruct ok; [destruct (data_coin _)|].
  - assert (oid ≠ oid') by congruence.
    destruct (in_state _ _ _); [|done]. unfold process_recipient_id.
    destruct text as [recipient|]; [|done]. destruct (negb _); [done|].
    destruct (data_amount _) as [amt|]; [|done].
    destruct (data_coin _) as [c|]; [|done].
    unfold state_clear, with_store. cbn [store].
    destruct (decide (resp_code response = Some 1000)) as [Hcode|Hcode].
    + rewrite recipient_reply_accepted by done.
      unfold get_pending_order at 1.
      rewrite pending_put_account, get_user_account_pending.
      fold (get_pending_order oid
              (set_order_txid oid' (default "" (resp_txid response))
                 (Some (default "0" (resp_fee response)))
                 (process_recipient_id_request uid recipient amt c oid' (store w)))).
      rewrite get_pending_order_set_txid_ne by done.
      by apply get_pending_order_add_ne.
    + rewrite recipient_reply_rejected by done.
      by apply get_pending_order_add_ne.
  - unfold with_store. cbn [store]. unfold handle_deposit_callback.
    destruct (py_float _) as [amt|]; [|done].
    destruct (userOrder cb) as [oid'|]; [|done].
    assert (oid ≠ oid') by congruence.
    destruct (get_pending_order oid' (store w)) as [order|]; [|done].
    assert (Hs1 : ∀ s1, (get_user_account (user_id order) (store w)).2 = s1 ->
              pending_orders s1 = pending_orders (store w)).
    { intros s1 <-. apply get_user_account_pending. }
    destruct (get_user_account (user_id order) (store w)) as [account s1].
    pose proof (Hs1 s1 eq_refl) as Hp. cbn [fst].
    rewrite get_pending_order_remove_ne by done.
    apply get_pending_order_frame.
    destruct (String.eqb _ _); [|done]. by autorewrite with pend.
  - unfold with_store. cbn [store]. unfold handle_withdraw_callback.
    destruct (py_float _) as [amt|]; [|done].
    destruct (userOrder cb) as [oid'|]; [|done].
    assert (oid ≠ oid') by congruence.
    destruct (get_pending_order oid' (store w)) as [order|]; [|done].
    assert (Hs1 : ∀ s1, (get_user_account (user_id order) (store w)).2 = s1 ->
              pending_orders s1 = pending_orders (store w)).
    { intros s1 <-. apply get_user_account_pending. }
    destruct (get_user_account (user_id order) (store w)) as [account s1].
    pose proof (Hs1 s1 eq_refl) as Hp.
    case_bool_decide; [|destruct (recipient_id order)]; cbn [fst];
      rewrite ?get_pending_order_remove_ne by done;
      apply get_pending_order_frame; by autorewrite with pend.
Qed.

(** X22. An event acts on one user: there is a user such that the
    accounts and the conversations of all other users are, after the event,
    what they were before it. *)
Theorem event_touches_one_user ev w :
  ∃ uid, ∀ uid', uid' ≠ uid ->
    user_accounts (store (step ev w)) !! uid' = user_accounts (store w) !! uid'
    ∧ fsm (step ev w) !! uid' = fsm w !! uid'.
Proof.
  destruct (step_effect ev w) as (uid & Ht & _ & Hf).
  exists uid. intros uid' Hne. split; [by apply Ht | by apply Hf].
Qed.

Lemma step_log ev w uid :
  log_step (created_order ev) (transactions_of uid (store w))
    (transactions_of uid (store (step ev w))).
Proof.
  destruct (step_effect ev w) as (uid0 & Ht & Hl & _).
  destruct (decide (uid = uid0)) as [->|Hne]; [done|].
  left. by rewrite (transactions_of_other uid0 uid (store w) _ Ht Hne).
Qed.

Lemma run_log evs w uid :
  ∃ extra,
    tx_core <$> transactions_of uid (store (run evs w))
    = ((tx_core <$> transactions_of uid (store w)) ++ extra)%list
    ∧ sublist (snd <$> extra) (omap created_order evs).
Proof.
  revert w. induction evs as [|ev evs IH]; intros w.
  - exists []. by rewrite app_nil_r.
  - cbn [run foldl]. fold (run evs (step ev w)).
    destruct (IH (step ev w)) as (extra & Heq & Hsub).
    destruct (step_log ev w uid) as [Hsame | (tx & Hid & Happ)].
    + exists extra. rewrite Heq, Hsame. split; [done|]. cbn [omap list_omap].
      destruct (created_order ev); [by apply sublist_cons | done].
    + exists (tx_core tx :: extra). rewrite Heq, Happ, <- app_assoc.
      split; [done|]. cbn [omap list_omap]. rewrite Hid.
      cbn [fmap list_fmap tx_core snd]. by apply sublist_skip.
Qed.

(** X23. The transaction lists are append-only. Over any run of events,
    every transaction a user had keeps its place, type, amount and order
    id (only a status is ever rewritten), and what the run appends carries,
    in order, ids of orders that creation events of the run registered,
    each creation event giving at most one transaction. *)
Theorem transactions_append_only evs w uid :
  ∃ extra,
    tx_core <$> transactions_of uid (store (run evs w))
    = ((tx_core <$> transactions_of uid (store w)) ++ extra)%list
    ∧ sublist (snd <$> extra) (omap created_order evs).
Proof. apply run_log. Qed.

(** X24. When the order ids that a run generates are pairwise distinct,
    no order id occurs twice in any user's transactions, in every
    state the run reaches from the empty store: each order has at most one
    transaction, the one [update_transaction_status] rewrites. *)
Theorem one_transaction_per_order evs uid :
  NoDup (omap created_order evs) ->
  NoDup (tx_order_id <$> transactions_of uid (store (run evs empty_world))).
Proof.
  intros Hfresh.
  destruct (run_log evs empty_world uid) as (extra & Heq & Hsub).
  assert (Hnil : transactions_of uid (store (empty_world (A:=A))) = []).
  { unfold transactions_of, get_user_account. simpl. by rewrite lookup_empty. }
  rewrite Hnil in Heq. cbn [fmap list_fmap app] in Heq.
  assert (Hids : tx_order_id <$> transactions_of uid (store (run evs empty_world))
                 = snd <$> extra).
  { rewrite <- Heq, <- list_fmap_compose. by apply list_fmap_ext. }
  rewrite Hids. by eapply sublist_NoDup.
Qed.

(** X25. Only settlement and an accepted withdrawal move a balance: if
    an event changes the balance of a user, it is a deposit callback with
    status success or a withdraw callback with status fail for a pending
    order of that user, or the user's own withdrawal order that the gateway
    accepted. Looking up an account, choosing a coin, ordering a deposit,
    entering an amount and a refused order never do. *)
Theorem balance_moves_only_by_settlement ev w uid :
  balance_of uid (store (step ev w)) ≠ balance_of uid (store w) ->
  match ev with
  | EvDepositCallback cb =>
      ∃ oid order, userOrder cb = Some oid
        ∧ get_pending_order oid (store w) = Some order
        ∧ user_id order = uid
        ∧ default "success" (orderStatus cb) = "success"
  | EvWithdrawCallback cb =>
      ∃ oid order, userOrder cb = Some oid
        ∧ get_pending_order oid (store w) = Some order
        ∧ user_id order = uid
        ∧ orderStatus cb = Some "fail"
  | EvRecipient u _ _ _ response => u = uid ∧ resp_code response = Some 1000
  | _ => False
  end.
Proof.
  intros Hmoved.
  destruct (step_effect ev w) as (uid0 & Ht & _ & _).
  assert (Hsame : uid ≠ uid0 -> False).
  { intros Hne. by apply Hmoved, (balance_of_other uid0). }
  destruct ev as [u|u c|u c|u text oid' response|u text
                 |u text chk oid' response|cb|cb]; simpl in *.
  - apply Hmoved. unfold start_command. cbn [store with_store].
    apply balance_of_get_any.
  - by apply Hmoved.
  - apply Hmoved. unfold select_coin_for_withdraw, select_coin_for_topup.
    case_bool_decide; cbn [store]; [done | apply balance_of_get_any].
  - apply Hmoved. destruct (in_state _ _ _); [|done].
    unfold process_topup_amount.
    destruct text as [amt|]; [|done]. destruct (num_lt amt num_one); [done|].
    destruct (data_coin _) as [c|]; [|done].
    unfold state_clear, with_store, process_topup_amount_reply,
      process_topup_amount_request. cbn [store].
    apply (balance_of_touch_same u).
    + case_bool_decide; auto with touch.
    + case_bool_decide; by autorewrite with bal.
  - apply Hmoved. destruct (in_state _ _ _); [|done].
    destruct text as [amt|]; [|done].
    unfold process_withdraw_amount.
    pose proof (withdraw_amount_check_store u amt (store w)) as Hs1.
    destruct (withdraw_amount_check u amt (store w)) as [ok s1].
    cbn [snd] in Hs1.
    assert (balance_of uid s1 = balance_of uid (store w))
      by (destruct Hs1 as [-> | ->]; [done | apply balance_of_get_any]).
    by destruct ok; [destruct (data_coin _)|].
  - destruct (in_state _ _ _); [|by destruct Hmoved].
    unfold process_recipient_id in Hmoved.
    destruct text as [recipient|]; [|by destruct Hmoved].
    destruct (negb _); [by destruct Hmoved|].
    destruct (data_amount _) as [amt|]; [|by destruct Hmoved].
    destruct (data_coin _) as [c|]; [|by destruct Hmoved].
    unfold state_clear, with_store in Hmoved. cbn [store] in Hmoved.
    destruct (decide (resp_code response = Some 1000)) as [Hcode|Hcode].
    + split; [|done]. destruct (decide (u = uid)) as [|Hne]; [done|].
      destruct Hmoved. apply (balance_of_other u); [|done].
      rewrite recipient_reply_accepted by done.
      unfold process_recipient_id_request. auto with touch.
    + destruct Hmoved. rewrite recipient_reply_rejected by done.
      apply balance_of_add_pending_order.
  - unfold with_store in Hmoved. cbn [store] in Hmoved.
    unfold handle_deposit_callback in Hmoved.
    destruct (py_float _) as [amt|]; [|by destruct Hmoved].
    destruct (userOrder cb) as [oid|]; [|by destruct Hmoved].
    destruct (get_pending_order oid (store w)) as [order|] eqn:Hord;
      [|by destruct Hmoved].
    assert (Hs1 : ∀ s1, (get_user_account (user_id order) (store w)).2 = s1 ->
              touches (user_id order) (store w) s1
              ∧ ∀ uid1, balance_of uid1 s1 = balance_of uid1 (store w)).
    { intros s1 <-. split; [auto with touch | intros; apply balance_of_get_any]. }
    destruct (get_user_account (user_id order) (store w)) as [account s1].
    destruct (Hs1 s1 eq_refl) as [Ht1 Hb1].
    destruct (String.eqb _ "success") eqn:Hst; cbn [fst] in Hmoved.
    + exists oid, order. apply String.eqb_eq in Hst. split_and!; try done.
      destruct (decide (user_id order = uid)) as [|Hne]; [done|].
      destruct Hmoved. rewrite <- (Hb1 uid).
      apply (balance_of_other (user_id order)); [auto with touch | done].
    + destruct Hmoved. by rewrite balance_of_remove_pending_order.
  - unfold with_store in Hmoved. cbn [store] in Hmoved.
    unfold handle_withdraw_callback in Hmoved.
    destruct (py_float _) as [amt|]; [|by destruct Hmoved].
    destruct (userOrder cb) as [oid|]; [|by destruct Hmoved].
    destruct (get_pending_order oid (store w)) as [order|] eqn:Hord;
      [|by destruct Hmoved].
    assert (Hs1 : ∀ s1, (get_user_account (user_id order) (store w)).2 = s1 ->
              touches (user_id order) (store w) s1
              ∧ ∀ uid1, balance_of uid1 s1 = balance_of uid1 (store w)).
    { intros s1 <-. split; [auto with touch | intros; apply balance_of_get_any]. }
    destruct (get_user_account (user_id order) (store w)) as [account s1].
    destruct (Hs1 s1 eq_refl) as [Ht1 Hb1].
    case_bool_decide as Hst.
    + exists oid, order. split_and!; try done.
      destruct (decide (user_id order = uid)) as [|Hne]; [done|].
      destruct Hmoved. cbn [fst]. rewrite <- (Hb1 uid).
      apply (balance_of_other (user_id order)); [auto with touch | done].
    + destruct Hmoved.
      destruct (recipient_id order); cbn [fst];
        rewrite ?balance_of_remove_pending_order,
          balance_of_update_transaction_status_any; apply Hb1.
Qed.

End EventTheorems.

Section PendingOrders.
Context {A : Type} `{Amount A}.
Implicit Types (s : Store A) (w : World A) (uid : Z) (oid : string) (ev : Event A).

(** What the creation handlers write into an order and never change. *)
Definition order_wf (order : Order A) : Prop :=
  order_status order = "pending"
  ∧ num_lt (amount order) num_one = false
  ∧ ((order_type order = "topup" ∧ recipient_id order = None)
     ∨ (order_type order = "withdraw" ∧ is_Some (recipient_id order))).

Definition orders_wf (s : Store A) : Prop :=
  ∀ oid order, get_pending_order oid s = Some order -> order_wf order.

(** A conversation that waits for the recipient holds an amount that is not
    below 1. *)
Definition amount_checked (w : World A) : Prop :=
  ∀ uid ctx, fsm w !! uid = Some ctx ->
    fsm_state ctx = Some waiting_for_recipient_tg_id ->
    ∃ a, data_amount ctx = Some a ∧ num_lt a num_one = false.

Lemma orders_wf_within s s' : pending_within s s' -> orders_wf s -> orders_wf s'.
Proof. intros Hw Hs oid order Hl. by apply (Hs oid), Hw. Qed.

Lemma orders_wf_same s s' :
  pending_orders s' = pending_orders s -> orders_wf s -> orders_wf s'.
Proof. intros E. apply orders_wf_within. by apply pending_within_eq. Qed.

Lemma orders_wf_add oid order s :
  order_wf order -> orders_wf s -> orders_wf (add_pending_order oid order s).
Proof.
  intros Ho Hs oid0 order0. unfold get_pending_order, add_pending_order. simpl.
  rewrite lookup_insert. case_decide; [by intros [= <-] | apply Hs].
Qed.

Lemma orders_wf_set_order_txid oid t f s :
  orders_wf s -> orders_wf (set_order_txid oid t f s).
Proof.
  intros Hs. unfold set_order_txid.
  destruct (get_pending_order oid s) as [order|] eqn:E; [|done].
  apply orders_wf_add; [|done]. exact (Hs oid order E).
Qed.

Lemma handle_deposit_callback_within cb s :
  pending_within s (handle_deposit_callback cb s).1.
Proof.
  unfold handle_deposit_callback.
  destruct (py_float _); [|by apply pending_within_eq].
  destruct (userOrder cb) as [oid|]; [|by apply pending_within_eq].
  destruct (get_pending_order oid s) as [order|]; [|by apply pending_within_eq].
  assert (Hs1 : ∀ s1, (get_user_account (user_id order) s).2 = s1 ->
            pending_orders s1 = pending_orders s).
  { intros s1 <-. apply get_user_account_pending. }
  destruct (get_user_account (user_id order) s) as [account s1].
  pose proof (Hs1 s1 eq_refl) as Hp. cbn [fst].
  apply pending_within_remove.
  destruct (String.eqb _ _); [|done]. by autorewrite with pend.
Qed.

Lemma handle_withdraw_callback_within cb s :
  pending_within s (handle_withdraw_callback cb s).1.
Proof.
  unfold handle_withdraw_callback.
  destruct (py_float _); [|by apply pending_within_eq].
  destruct (userOrder cb) as [oid|]; [|by apply pending_within_eq].
  destruct (get_pending_order oid s) as [order|]; [|by apply pending_within_eq].
  assert (Hs1 : ∀ s1, (get_user_account (user_id order) s).2 = s1 ->
            pending_orders s1 = pending_orders s).
  { intros s1 <-. apply get_user_account_pending. }
  destruct (get_user_account (user_id order) s) as [account s1].
  pose proof (Hs1 s1 eq_refl) as Hp.
  case_bool_decide; [|destruct (recipient_id order)]; cbn [fst].
  - apply pending_within_remove. by autorewrite with pend.
  - apply pending_within_remove. by autorewrite with pend.
  - apply pending_within_eq. by autorewrite with pend.
Qed.

Lemma step_orders_wf ev w :
  orders_wf (store w) ∧ amount_checked w ->
  orders_wf (store (step ev w)) ∧ amount_checked (step ev w).
Proof.
  intros [Ho Hc].
  assert (Hkeep : ∀ (f : gmap Z (FsmContext A)) uid,
    (∀ uid', uid' ≠ uid -> f !! uid' = fsm w !! uid') ->
    (∀ ctx, f !! uid = Some ctx ->
       fsm_state ctx = Some waiting_for_recipient_tg_id ->
       ∃ a, data_amount ctx = Some a ∧ num_lt a num_one = false) ->
    ∀ s, amount_checked {| store := s; fsm := f |}).
  { intros f uid Hf Hctx s uid0 ctx. cbn [fsm].
    destruct (decide (uid0 = uid)) as [->|Hne]; [apply Hctx|].
    rewrite Hf by done. apply Hc. }
  destruct ev as [uid|uid c|uid c|uid text oid response|uid text
                 |uid text chk oid response|cb|cb]; simpl.
  - split; [|done]. unfold start_command. cbn [store with_store].
    apply (orders_wf_same (store w)); [apply get_user_account_pending | done].
  - split; [done|]. unfold select_coin_for_topup.
    apply (Hkeep _ uid).
    + intros uid' Hne. by rewrite lookup_insert_ne.
    + intros ctx. rewrite lookup_insert_eq. by intros [= <-].
  - unfold select_coin_for_withdraw, select_coin_for_topup.
    case_bool_decide; cbn [store]; split.
    + done.
    + apply (Hkeep _ uid).
      * intros uid' Hne. by rewrite lookup_insert_ne.
      * intros ctx. rewrite lookup_insert_eq. by intros [= <-].
    + apply (orders_wf_same (store w)); [apply get_user_account_pending | done].
    + apply (Hkeep _ uid).
      * intros uid' Hne. by rewrite lookup_insert_ne.
      * intros ctx. rewrite lookup_insert_eq. by intros [= <-].
  - destruct (in_state _ _ _); [|done]. unfold process_topup_amount.
    destruct text as [amt|]; [|done].
    destruct (num_lt amt num_one) eqn:Hone; [done|].
    destruct (data_coin _) as [c|]; [|done].
    unfold state_clear, with_store, process_topup_amount_reply,
      process_topup_amount_request. cbn [store fsm]. split.
    + assert (Hnew : orders_wf (add_pending_order oid
          {| user_id := uid; recipient_id := None; amount := amt; coin := c;
             order_type := "topup"; order_status := "pending";
             txid := None; fee := None |} (store w))).
      { apply orders_wf_add; [|done]. split_and!; [done..|by left]. }
      case_bool_decide; [|done].
      eapply orders_wf_same; [apply pending_add_transaction|].
      by apply orders_wf_set_order_txid.
    + apply (Hkeep _ uid).
      * intros uid' Hne. by rewrite lookup_delete_ne.
      * intros ctx. by rewrite lookup_delete_eq.
  - destruct (in_state _ _ _); [|done]. unfold process_withdraw_amount.
    destruct text as [amt|]; [|done].
    pose proof (withdraw_amount_check_store uid amt (store w)) as Hs1.
    destruct (withdraw_amount_check_result uid amt (store w)) as [Hok _].
    destruct (withdraw_amount_check uid amt (store w)) as [ok s1].
    cbn [fst snd] in *.
    assert (Ho1 : orders_wf s1).
    { destruct Hs1 as [-> | ->]; [done|].
      apply (orders_wf_same (store w)); [apply get_user_account_pending | done]. }
    destruct ok; [destruct (data_coin _)|]; cbn [store fsm with_store];
      (split; [done|]); try done.
    apply (Hkeep _ uid).
    + intros uid' Hne. by rewrite lookup_insert_ne.
    + intros ctx. rewrite lookup_insert_eq. intros [= <-] _. exists amt.
      split; [done|]. symmetry in Hok. apply andb_true_iff in Hok as [Hone _].
      by apply negb_true_iff in Hone.
  - destruct (in_state _ _ _) eqn:Hin; [|done].
    destruct (in_state_lookup _ _ _ Hin) as (ctx & Hl & Hst & Hctx).
    destruct (Hc uid ctx Hl Hst) as (a & Ha & Hone).
    unfold process_recipient_id.
    destruct text as [recipient|]; [|done]. destruct (negb _); [done|].
    rewrite Hctx, Ha. destruct (data_coin ctx) as [c|]; [|done].
    unfold state_clear, with_store. cbn [store fsm]. split.
    + assert (Hnew : orders_wf
          (process_recipient_id_request uid recipient a c oid (store w))).
      { apply orders_wf_add; [|done].
        split_and!; [done..|]. right. by split; [|eexists]. }
      destruct (decide (resp_code response = Some 1000)) as [Hcode|Hcode].
      * rewrite recipient_reply_accepted by done.
        eapply orders_wf_same;
          [rewrite pending_put_account; apply get_user_account_pending|].
        by apply orders_wf_set_order_txid.
      * by rewrite recipient_reply_rejected.
    + apply (Hkeep _ uid).
      * intros uid' Hne. by rewrite lookup_delete_ne.
      * intros ctx0. by rewrite lookup_delete_eq.
  - split; [|done]. unfold with_store. cbn [store].
    apply (orders_wf_within (store w)); [apply handle_deposit_callback_within | done].
  - split; [|done]. unfold with_store. cbn [store].
    apply (orders_wf_within (store w)); [apply handle_withdraw_callback_within | done].
Qed.

(** X26. In every state reachable from the empty store, every pending
    order is as a creation handler wrote it: its status field still reads
    pending (no handler ever updates it), its amount is not below 1, and it
    is either a topup order without recipient or a withdraw order with
    one. *)
Theorem pending_orders_stay_as_created evs oid order :
  get_pending_order oid (store (run evs empty_world)) = Some order ->
  order_status order = "pending"
  ∧ num_lt (amount order) num_one = false
  ∧ ((order_type order = "topup" ∧ recipient_id order = None)
     ∨ (order_type order = "withdraw" ∧ is_Some (recipient_id order))).
Proof.
  assert (Hrun : ∀ w, orders_wf (store w) ∧ amount_checked w ->
            orders_wf (store (run evs w)) ∧ amount_checked (run evs w)).
  { induction evs as [|ev evs IH]; intros w Hw; [done|].
    cbn [run foldl]. apply IH. by apply step_orders_wf. }
  intros Hl. destruct (Hrun empty_world) as [Ho _].
  { split.
    - intros oid0 order0. unfold get_pending_order. simpl. by rewrite lookup_empty.
    - intros uid ctx. simpl. by rewrite lookup_empty. }
  by apply (Ho oid).
Qed.

End PendingOrders.

Section RoundTrips.
Context {A : Type} `{Amount A}.
Implicit Types (s : Store A) (w : World A) (uid : Z) (oid : string).

(** X27. A deposit from order to settlement: the gateway accepts the
    order, then the success callback arrives with the ordered amount. The
    balance has grown by the amount, the order's transaction reads
    success with the amount, the order is no longer pending and the
    conversation is cleared. *)
Theorem deposit_order_then_callback uid amt c oid response w :
  in_state uid waiting_for_topup_amount w = true ->
  num_lt amt num_one = false ->
  data_coin (context_of uid w) = Some c ->
  resp_code response = Some 1000 ->
  find_tx oid (transactions_of uid (store w)) = None ->
  let w1 := step (EvTopupAmount uid (Some amt) oid response) w in
  let w2 := step (EvDepositCallback
                    (callback "deposit" oid (AmountValue amt) "success")) w1 in
  balance_of uid (store w1) = balance_of uid (store w)
  ∧ balance_of uid (store w2) = balance_of uid (store w) ⊕ amt
  ∧ find_tx oid (transactions_of uid (store w2))
    = Some {| tx_type := "topup"; tx_amount := amt;
              tx_status := Some "success"; tx_order_id := oid |}
  ∧ get_pending_order oid (store w2) = None
  ∧ fsm w2 !! uid = None.
Proof.
  intros Hin Hge Hcoin Hcode Hfresh w1 w2.
  destruct (topup_accepted_store uid amt c oid response w Hin Hge Hcoin Hcode)
    as (Hord & Htx & Hbal & Hfsm).
  fold w1 in Hord, Htx, Hbal, Hfsm.
  subst w2. cbn [step with_store store fsm].
  pose proof (handle_deposit_callback_success
                (callback "deposit" oid (AmountValue amt) "success") oid _ amt
                (store w1) eq_refl Hord eq_refl eq_refl) as Hcb.
  rewrite Hcb.
  cbn [fst user_id]. split_and!.
  - apply Hbal.
  - by rewrite balance_after_deposit, Hbal.
  - rewrite transactions_after_deposit, find_tx_mark_first, Htx.
    by rewrite (find_tx_app_fresh oid _
                  {| tx_type := "topup"; tx_amount := amt;
                     tx_status := Some "pending"; tx_order_id := oid |}
                  Hfresh eq_refl).
  - apply get_pending_order_removed.
  - done.
Qed.

(** X28. A withdrawal from order to settlement: the gateway accepts the
    order, then the callback reports success. The amount has left the
    balance once, at the order and not again at the settlement; the
    order's transaction reads success with the negated amount, and the
    order is no longer pending. *)
Theorem withdraw_order_then_success uid recipient chk amt c oid response w :
  in_state uid waiting_for_recipient_tg_id w = true ->
  recipient_exists chk = true ->
  data_amount (context_of uid w) = Some amt ->
  data_coin (context_of uid w) = Some c ->
  resp_code response = Some 1000 ->
  find_tx oid (transactions_of uid (store w)) = None ->
  let w1 := step (EvRecipient uid (Some recipient) chk oid response) w in
  let w2 := step (EvWithdrawCallback
                    (callback "withdraw" oid AmountAbsent "success")) w1 in
  balance_of uid (store w1) = balance_of uid (store w) ⊖ amt
  ∧ balance_of uid (store w2) = balance_of uid (store w) ⊖ amt
  ∧ find_tx oid (transactions_of uid (store w2))
    = Some {| tx_type := "withdraw"; tx_amount := num_neg amt;
              tx_status := Some "success"; tx_order_id := oid |}
  ∧ get_pending_order oid (store w2) = None.
Proof.
  intros Hin Hex Hamt Hcoin Hcode Hfresh w1 w2.
  assert (Hs1 : store w1 =
    process_recipient_id_reply uid recipient amt c oid response
      (process_recipient_id_request uid recipient amt c oid (store w))).
  { subst w1. cbn [step]. rewrite Hin.
    by apply process_recipient_id_store. }
  assert (Hord : get_pending_order oid (store w1) = Some (withdraw_order uid
            recipient amt c (Some (default "" (resp_txid response)))
            (Some (default "0" (resp_fee response)))))
    by (rewrite Hs1; by apply recipient_reply_pending).
  assert (Hb1 : balance_of uid (store w1) = balance_of uid (store w) ⊖ amt).
  { rewrite Hs1, recipient_reply_accepted by done. rewrite balance_of_put.
    cbn [balance]. unfold process_recipient_id_request.
    by rewrite balance_of_add_pending_order. }
  assert (Ht1 : transactions_of uid (store w1)
                = (transactions_of uid (store w) ++ [debit_transaction amt oid])%list).
  { rewrite Hs1, recipient_reply_accepted by done. rewrite transactions_of_put.
    cbn [transactions]. unfold process_recipient_id_request.
    by rewrite transactions_of_add_pending_order. }
  assert (Heq : handle_withdraw_callback
                  (callback "withdraw" oid AmountAbsent "success") (store w1) =
    (remove_pending_order oid
       (update_transaction_status uid oid (Some "success")
          (get_user_account uid (store w1)).2), Returned)).
  { unfold handle_withdraw_callback. cbn [callback cb_amount userOrder
      orderStatus py_float]. rewrite Hord. cbn [user_id withdraw_order].
    destruct (get_user_account uid (store w1)) as [account s2].
    by rewrite bool_decide_eq_false_2. }
  subst w2. cbn [step with_store store]. rewrite Heq. cbn [fst].
  split_and!.
  - done.
  - rewrite balance_of_remove_pending_order,
      balance_of_update_transaction_status, balance_of_get. done.
  - rewrite transactions_of_remove_pending_order,
      transactions_of_update_transaction_status, transactions_of_get.
    rewrite find_tx_mark_first, Ht1.
    by rewrite (find_tx_app_fresh oid _ (debit_transaction amt oid) Hfresh eq_refl).
  - apply get_pending_order_removed.
Qed.

End RoundTrips.

(** ** The further properties on concrete data *)

Definition topup_order_100 : Order float :=
  {| user_id := 1; recipient_id := None; amount := 100%float; coin := "USDT";
     order_type := "topup"; order_status := "pending"; txid := Some "T1";
     fee := None |}.

(** User 1, funded with 50, has a withdrawal of 30 that the gateway accepted. *)
Definition withdraw_ordered : World float :=
  step (EvRecipient 1 (Some 2) recipient_known withdraw_id accepted)
    (withdraw_entered 50%float 30%float).

(** A request for [payload] signed with [secret_key], and a decoder that
    answers with a fixed callback. *)
Definition signed_request : Request :=
  {| hdr_id := Some merchant;
     hdr_sign := generate_sign toy_digest toy_base64 secret_key payload;
     req_text := Some payload |}.

Definition decode_as {A : Type} (cb : Callback A) (_ : pystr) : option (Callback A) :=
  Some cb.

Lemma signed_request_authenticated :
  authenticated toy_digest toy_base64 merchant secret_key signed_request payload.
Proof. split_and!; reflexivity. Qed.

Lemma deposit_callback_other_status_drops_order_witness :
  let s := store (deposit_ordered 100%float) in
  let cb := callback "deposit" topup_id (AmountValue 100%float) "fail" in
  let s' := (handle_deposit_callback cb s).1 in
  balance_of 1 s' = 0%float
  ∧ tx_status <$> find_tx topup_id (transactions_of 1 s') = Some (Some "pending")
  ∧ get_pending_order topup_id s' = None.
Proof.
  intros s cb s'.
  assert (H1 : get_pending_order topup_id s = Some topup_order_100)
    by (vm_compute; reflexivity).
  assert (H2 : py_float (cb_amount cb) ≠ None) by discriminate.
  assert (H3 : default "success" (orderStatus cb) ≠ "success") by discriminate.
  pose proof (deposit_callback_other_status_drops_order cb topup_id
                topup_order_100 s eq_refl H1 H2 H3) as (_ & Hb & Ht & Hgone).
  split_and!.
  - etrans; [exact (Hb 1) | vm_compute; reflexivity].
  - etrans; [exact (f_equal (fun l => tx_status <$> find_tx topup_id l) (Ht 1))
            | vm_compute; reflexivity].
  - exact Hgone.
Defined.

Lemma withdraw_callback_writes_payload_status_witness :
  let s := store withdraw_ordered in
  let cb := callback "withdraw" withdraw_id AmountAbsent "done" in
  let s' := (handle_withdraw_callback cb s).1 in
  balance_of 1 s = 20%float
  ∧ balance_of 1 s' = 20%float
  ∧ tx_status <$> find_tx withdraw_id (transactions_of 1 s') = Some (Some "done")
  ∧ get_pending_order withdraw_id s' = None.
Proof.
  intros s cb s'.
  assert (H1 : get_pending_order withdraw_id s
               = Some (withdraw_order 1 2 30%float "USDT" (Some "T1") (Some "0")))
    by (vm_compute; reflexivity).
  assert (H2 : py_float (cb_amount cb) ≠ None) by discriminate.
  assert (H3 : orderStatus cb ≠ Some "fail") by discriminate.
  pose proof (withdraw_callback_writes_payload_status cb withdraw_id _ 2 s
                eq_refl H1 eq_refl H2 H3) as (_ & Hb & Ht & Hgone).
  split_and!.
  - vm_compute. reflexivity.
  - etrans; [exact (Hb 1) | vm_compute; reflexivity].
  - etrans; [exact (f_equal (fun l => tx_status <$> find_tx withdraw_id l) Ht)
            | vm_compute; reflexivity].
  - exact Hgone.
Defined.

Lemma withdraw_callback_ignores_payload_amount_witness :
  let s := store withdraw_ordered in
  let cb := callback "withdraw" withdraw_id (AmountValue 1%float) "fail" in
  let cb' := callback "withdraw" withdraw_id (AmountValue 999%float) "fail" in
  handle_withdraw_callback cb s = handle_withdraw_callback cb' s
  ∧ balance_of 1 (handle_withdraw_callback cb s).1 = 50%float.
Proof.
  intros s cb cb'.
  assert (H1 : get_pending_order withdraw_id s
               = Some (withdraw_order 1 2 30%float "USDT" (Some "T1") (Some "0")))
    by (vm_compute; reflexivity).
  assert (H2 : py_float (cb_amount cb) ≠ None) by discriminate.
  assert (H3 : py_float (cb_amount cb') ≠ None) by discriminate.
  pose proof (withdraw_callback_ignores_payload_amount cb cb' withdraw_id
                (withdraw_order 1 2 30%float "USDT" (Some "T1") (Some "0")) s
                eq_refl eq_refl H2 H3) as [Hsame Hb].
  split; [exact Hsame|].
  etrans; [exact (Hb eq_refl H1 eq_refl) | vm_compute; reflexivity].
Defined.

Lemma webhook_unknown_order_acknowledged_witness :
  let s := store (funded 50%float) in
  let cb := callback "deposit" "topup_9_ffffffff" (AmountValue 10%float) "success" in
  kkpay_webhook_handler toy_digest toy_base64 (decode_as cb) merchant secret_key
    signed_request s = (s, 200).
Proof.
  intros s cb.
  apply (webhook_unknown_order_acknowledged toy_digest toy_base64 (decode_as cb)
           merchant secret_key signed_request payload cb s
           signed_request_authenticated eq_refl (or_introl eq_refl)).
  - discriminate.
  - intros oid [= <-]. vm_compute. reflexivity.
Defined.

Lemma webhook_other_categories_have_no_effect_witness :
  let s := store (deposit_ordered 100%float) in
  let cb := callback "refund" topup_id (AmountValue 100%float) "success" in
  let answer := kkpay_webhook_handler toy_digest toy_base64 (decode_as cb)
                  merchant secret_key signed_request s in
  answer.1 = s ∧ answer.2 = 200.
Proof.
  intros s cb answer.
  assert (Hd : businessType cb ≠ Some "deposit") by discriminate.
  assert (Hw : businessType cb ≠ Some "withdraw") by discriminate.
  assert (Hc : businessType cb ≠ Some "withdrawalPendingConfirm") by discriminate.
  pose proof (webhook_other_categories_have_no_effect toy_digest toy_base64
                (decode_as cb) merchant secret_key signed_request payload cb s
                signed_request_authenticated eq_refl Hd Hw) as (Hs & Hcode & _).
  split; [exact Hs | exact (Hcode (or_introl Hc))].
Defined.

Lemma webhook_invalid_amount_changes_nothing_witness :
  let s := store (deposit_ordered 100%float) in
  let cb := callback "deposit" topup_id AmountInvalid "success" in
  kkpay_webhook_handler toy_digest toy_base64 (decode_as cb) merchant secret_key
    signed_request s = (s, 500)
  ∧ is_Some (get_pending_order topup_id s).
Proof.
  intros s cb. split; [|by eexists; vm_compute].
  exact (webhook_invalid_amount_changes_nothing toy_digest toy_base64
           (decode_as cb) merchant secret_key signed_request payload cb s
           signed_request_authenticated eq_refl eq_refl (or_introl eq_refl)).
Defined.

Lemma webhook_withdraw_callback_needs_recipient_witness :
  let s := store (deposit_ordered 100%float) in
  let cb := callback "withdraw" topup_id AmountAbsent "success" in
  let answer := kkpay_webhook_handler toy_digest toy_base64 (decode_as cb)
                  merchant secret_key signed_request s in
  answer.2 = 500
  ∧ get_pending_order topup_id answer.1 = Some topup_order_100
  ∧ tx_status <$> find_tx topup_id (transactions_of 1 answer.1)
    = Some (Some "success")
  ∧ balance_of 1 answer.1 = 0%float.
Proof.
  intros s cb answer.
  assert (H1 : get_pending_order topup_id s = Some topup_order_100)
    by (vm_compute; reflexivity).
  assert (H2 : py_float (cb_amount cb) ≠ None) by discriminate.
  assert (H3 : orderStatus cb ≠ Some "fail") by discriminate.
  pose proof (webhook_withdraw_callback_needs_recipient toy_digest toy_base64
                (decode_as cb) merchant secret_key signed_request payload cb
                topup_id topup_order_100 s signed_request_authenticated eq_refl
                eq_refl eq_refl H1 eq_refl H2 H3) as (Hcode & Hord & Hb & Ht).
  split_and!.
  - exact Hcode.
  - exact Hord.
  - etrans; [exact (f_equal (fun l => tx_status <$> find_tx topup_id l) Ht)
            | vm_compute; reflexivity].
  - etrans; [exact (Hb 1) | vm_compute; reflexivity].
Defined.


Lemma sign_and_verify_ascii_witness :
  generate_sign toy_digest toy_base64 secret_key payload
  = Some (toy_base64 (toy_digest (payload ++ secret_key)%list))
  ∧ verify_signature toy_digest toy_base64 secret_key payload (Some [120]%N) = false.
Proof.
  assert (Hp : ascii_text payload) by (repeat constructor).
  assert (Hs : ascii_text secret_key) by (repeat constructor).
  pose proof (sign_and_verify_ascii toy_digest toy_base64 secret_key payload
                Hp Hs) as [Hsign Hverify].
  split; [exact Hsign|].
  etrans; [exact (Hverify (Some [120]%N)) | vm_compute; reflexivity].
Defined.

Definition sent_message : Request :=
  {| hdr_id := Some merchant;
     hdr_sign := Some (toy_base64 (toy_digest (toy_base64 payload ++ secret_key)%list));
     req_text := Some (toy_base64 payload) |}.

Lemma make_request_message_authenticates_witness :
  let s := store (deposit_ordered 100%float) in
  make_request_message toy_digest toy_base64 merchant secret_key (Some payload)
  = Some sent_message
  ∧ (kkpay_webhook_handler toy_digest toy_base64 decode_to_deposit merchant
       secret_key sent_message s).2 ≠ 401.
Proof.
  intros s.
  assert (Hmsg : make_request_message toy_digest toy_base64 merchant secret_key
                   (Some payload) = Some sent_message) by (vm_compute; reflexivity).
  split; [exact Hmsg|].
  exact (proj2 (make_request_message_authenticates toy_digest toy_base64
                  merchant secret_key (Some payload) sent_message
                  decode_to_deposit s Hmsg)).
Defined.

(** User 1 has picked the coin for a deposit, or for a withdrawal. *)
Definition topup_chosen {A : Type} `{Amount A} : World A :=
  step (EvSelectCoinTopup 1 "USDT") empty_world.

Definition withdraw_chosen {A : Type} `{Amount A} (b : A) : World A :=
  step (EvSelectCoinWithdraw 1 "USDT") (funded b).

Lemma process_topup_amount_accepted_witness :
  let w := topup_chosen (A:=float) in
  let w' := step (EvTopupAmount 1 (Some 100%float) topup_id accepted) w in
  get_pending_order topup_id (store w') = Some topup_order_100
  ∧ length (transactions_of 1 (store w')) = 1%nat
  ∧ balance_of 1 (store w') = 0%float
  ∧ fsm w' !! 1 = None.
Proof.
  intros w w'.
  assert (H1 : in_state 1 waiting_for_topup_amount w = true)
    by (vm_compute; reflexivity).
  assert (H2 : num_lt 100%float num_one = false) by (vm_compute; reflexivity).
  assert (H3 : data_coin (context_of 1 w) = Some "USDT")
    by (vm_compute; reflexivity).
  pose proof (process_topup_amount_accepted 1 100%float "USDT" topup_id accepted
                w H1 H2 H3 eq_refl) as (Hord & Htx & Hb & Hfsm).
  split_and!.
  - exact Hord.
  - etrans; [exact (f_equal length Htx) | vm_compute; reflexivity].
  - etrans; [exact (Hb 1) | vm_compute; reflexivity].
  - exact Hfsm.
Defined.

Lemma process_withdraw_amount_decides_witness :
  let w := withdraw_chosen 50%float in
  let w' := process_withdraw_amount 1 (Some 50%float) w in
  balance_of 1 (store w') = 50%float
  ∧ fsm_state (context_of 1 w') = Some waiting_for_recipient_tg_id
  ∧ data_amount (context_of 1 w') = Some 50%float
  ∧ fsm (process_withdraw_amount 1 (Some 50.5%float) w) = fsm w.
Proof.
  intros w w'.
  assert (H1 : data_coin (context_of 1 w) = Some "USDT")
    by (vm_compute; reflexivity).
  pose proof (process_withdraw_amount_decides 1 50%float "USDT" w H1)
    as (Hb & _ & _ & Hok).
  pose proof (process_withdraw_amount_decides 1 50.5%float "USDT" w H1)
    as (_ & _ & _ & Hno).
  assert (E1 : negb (num_lt 50%float num_one)
               && negb (num_lt (balance_of 1 (store w)) 50%float) = true)
    by (vm_compute; reflexivity).
  assert (E2 : negb (num_lt 50.5%float num_one)
               && negb (num_lt (balance_of 1 (store w)) 50.5%float) = false)
    by (vm_compute; reflexivity).
  rewrite E1 in Hok. rewrite E2 in Hno. destruct Hok as (Hst & Hamt & _).
  split_and!.
  - etrans; [exact (Hb 1) | vm_compute; reflexivity].
  - exact Hst.
  - exact Hamt.
  - exact Hno.
Defined.

Lemma finished_conversation_ignores_messages_witness :
  let w := withdraw_entered 50%float 30%float in
  let w' := process_recipient_id 1 (Some 2) recipient_known withdraw_id accepted w in
  balance_of 1 (store w') = 20%float
  ∧ step (EvRecipient 1 (Some 2) recipient_known withdraw_id' accepted) w' = w'.
Proof.
  intros w w'.
  assert (H1 : num_lt 30%float num_one = false) by (vm_compute; reflexivity).
  assert (H2 : data_coin (context_of 1 w) = Some "USDT")
    by (vm_compute; reflexivity).
  assert (H3 : data_amount (context_of 1 w) = Some 30%float)
    by (vm_compute; reflexivity).
  pose proof (finished_conversation_ignores_messages 1 30%float "USDT"
                withdraw_id accepted w
                (EvRecipient 1 (Some 2) recipient_known withdraw_id' accepted)
                H1 H2 eq_refl) as [Hrec _].
  split; [vm_compute; reflexivity|].
  exact (Hrec 2 recipient_known eq_refl H3).
Defined.

Lemma event_touches_one_order_witness :
  let w := deposit_ordered 100%float in
  let ev := EvWithdrawCallback
              (callback "withdraw" withdraw_id (AmountValue 100%float) "fail") in
  get_pending_order topup_id (store (step ev w)) = Some topup_order_100.
Proof.
  intros w ev.
  assert (H1 : event_order ev ≠ Some topup_id) by discriminate.
  etrans; [exact (event_touches_one_order ev w topup_id H1)
          | vm_compute; reflexivity].
Defined.

(** Deposit 100, withdraw 30, the withdrawal fails, with binary64 amounts. *)
Definition float_round : list (Event float) :=
  [EvSelectCoinTopup 1 "USDT";
   EvTopupAmount 1 (Some 100%float) topup_id accepted;
   EvDepositCallback (callback "deposit" topup_id (AmountValue 100%float) "success");
   EvSelectCoinWithdraw 1 "USDT";
   EvWithdrawAmount 1 (Some 30%float);
   EvRecipient 1 (Some 2) recipient_known withdraw_id accepted;
   EvWithdrawCallback (callback "withdraw" withdraw_id AmountAbsent "fail")].

Lemma one_transaction_per_order_witness :
  (tx_order_id <$> transactions_of 1 (store (run float_round empty_world)))
  = [topup_id; withdraw_id]
  ∧ NoDup (tx_order_id <$> transactions_of 1 (store (run float_round empty_world))).
Proof.
  assert (H1 : NoDup (omap created_order float_round)).
  { apply (bool_decide_unpack _). vm_compute. exact I. }
  split; [vm_compute; reflexivity|].
  exact (one_transaction_per_order float_round 1 H1).
Defined.

Lemma balance_moves_only_by_settlement_witness :
  let w := deposit_ordered (A:=Z) 100 in
  let cb := callback "deposit" topup_id (AmountValue 100) "success" in
  balance_of 1 (store w) = 0
  ∧ balance_of 1 (store (step (EvDepositCallback cb) w)) = 100
  ∧ ∃ oid order, userOrder cb = Some oid
      ∧ get_pending_order oid (store w) = Some order
      ∧ user_id order = 1
      ∧ default "success" (orderStatus cb) = "success".
Proof.
  intros w cb.
  assert (H1 : balance_of 1 (store (step (EvDepositCallback cb) w))
               ≠ balance_of 1 (store w)) by (vm_compute; discriminate).
  split_and!; [vm_compute; reflexivity | vm_compute; reflexivity |].
  exact (balance_moves_only_by_settlement (EvDepositCallback cb) w 1 H1).
Defined.

Lemma pending_orders_stay_as_created_witness :
  let evs := [EvSelectCoinTopup 1 "USDT";
              EvTopupAmount 1 (Some 100%float) topup_id accepted] in
  get_pending_order topup_id (store (run evs empty_world)) = Some topup_order_100
  ∧ order_status topup_order_100 = "pending"
  ∧ num_lt (amount topup_order_100) num_one = false.
Proof.
  intros evs.
  assert (H1 : get_pending_order topup_id (store (run evs empty_world))
               = Some topup_order_100) by (vm_compute; reflexivity).
  pose proof (pending_orders_stay_as_created evs topup_id topup_order_100 H1)
    as (Hst & Hamt & _).
  by split_and!.
Defined.

Lemma deposit_order_then_callback_witness :
  let w := topup_chosen (A:=float) in
  let w1 := step (EvTopupAmount 1 (Some 100%float) topup_id accepted) w in
  let w2 := step (EvDepositCallback
                    (callback "deposit" topup_id (AmountValue 100%float) "success"))
              w1 in
  balance_of 1 (store w2) = 100%float
  ∧ tx_status <$> find_tx topup_id (transactions_of 1 (store w2))
    = Some (Some "success")
  ∧ get_pending_order topup_id (store w2) = None.
Proof.
  intros w w1 w2.
  assert (H1 : in_state 1 waiting_for_topup_amount w = true)
    by (vm_compute; reflexivity).
  assert (H2 : num_lt 100%float num_one = false) by (vm_compute; reflexivity).
  assert (H3 : data_coin (context_of 1 w) = Some "USDT")
    by (vm_compute; reflexivity).
  assert (H4 : find_tx topup_id (transactions_of 1 (store w)) = None)
    by (vm_compute; reflexivity).
  pose proof (deposit_order_then_callback 1 100%float "USDT" topup_id accepted
                w H1 H2 H3 eq_refl H4) as (_ & Hb & Htx & Hgone & _).
  split_and!.
  - etrans; [exact Hb | vm_compute; reflexivity].
  - etrans; [exact (f_equal (fmap tx_status) Htx) | reflexivity].
  - exact Hgone.
Defined.

Lemma withdraw_order_then_success_witness :
  let w := withdraw_entered 50%float 30%float in
  let w1 := step (EvRecipient 1 (Some 2) recipient_known withdraw_id accepted) w in
  let w2 := step (EvWithdrawCallback
                    (callback "withdraw" withdraw_id AmountAbsent "success")) w1 in
  balance_of 1 (store w1) = 20%float
  ∧ balance_of 1 (store w2) = 20%float
  ∧ tx_status <$> find_tx withdraw_id (transactions_of 1 (store w2))
    = Some (Some "success")
  ∧ get_pending_order withdraw_id (store w2) = None.
Proof.
  intros w w1 w2.
  assert (H1 : in_state 1 waiting_for_recipient_tg_id w = true)
    by (vm_compute; reflexivity).
  assert (H2 : data_amount (context_of 1 w) = Some 30%float)
    by (vm_compute; reflexivity).
  assert (H3 : data_coin (context_of 1 w) = Some "USDT")
    by (vm_compute; reflexivity).
  assert (H4 : find_tx withdraw_id (transactions_of 1 (store w)) = None)
    by (vm_compute; reflexivity).
  pose proof (withdraw_order_then_success 1 2 recipient_known 30%float "USDT"
                withdraw_id accepted w H1 eq_refl H2 H3 eq_refl H4)
    as (Hb1 & Hb2 & Htx & Hgone).
  split_and!.
  - etrans; [exact Hb1 | vm_compute; reflexivity].
  - etrans; [exact Hb2 | vm_compute; reflexivity].
  - etrans; [exact (f_equal (fmap tx_status) Htx) | reflexivity].
  - exact Hgone.
Defined.
